(** * An item service over a flat file: model and verification

    The program under study is a single Node.js file, [index.js]: an HTTP
    server that keeps a collection of items in [items.json], exposes it
    under [/api/items], and serves [*.html] pages from a [public]
    directory.

    The development follows the file top-down: JavaScript strings and
    values, the JSON boundary, the persistence functions [readItems] and
    [writeItems], [parseJsonBody], [validateItemPayload], Node's [path]
    functions and [serveStaticHtml], [handleApi] and the request listener.
    The vocabulary of the statements closes the definitions; lemmas and
    the verified claims follow.

    Modelling conventions.
    - A JavaScript string is a [string], one character per code unit, for
      the code units below 256; case mapping and white space are
      JavaScript's on that range.
    - A JavaScript number is an IEEE-754 double, [spec_float].
    - A JSON document (a request body, the content of [items.json], a
      response body) is a [text]: the empty text, a non-empty text that
      [JSON.parse] rejects, or a text that [JSON.parse] accepts, named by
      the value it parses to.  [JSON.stringify] is the text that parses to
      the value as written: zeros lose their sign and numbers that are not
      finite become [null].
    - [undefined], the result of reading a property that is not there, is
      [None].
    - The data file is absent or holds a text; [ENOENT] is the only
      failure of the file system that is modelled, and writes succeed.
    - [randomUUID()] is an input of the handler.
    - [path] is Node's POSIX implementation, read segment by segment; what
      is proved about file paths is lexical. *)

From Stdlib Require Import String Ascii List Bool Arith Lia ZArith.
From Stdlib Require Import Floats.SpecFloat.
Import ListNotations.
Local Open Scope string_scope.
Local Open Scope list_scope.
#[local] Set Warnings "-register-all".

(** ** JavaScript strings *)

Module Str.

(** [s.endsWith(suffix)] *)
Fixpoint endsWith (s suffix : string) : bool :=
  if String.eqb s suffix then true
  else match s with
       | EmptyString => false
       | String _ rest => endsWith rest suffix
       end.

(** [s.startsWith(p)]: Stdlib's [prefix p s]. *)
Definition startsWith (s p : string) : bool := prefix p s.

(** The code units that [toLowerCase] changes: [A]-[Z], and the capital
    letters 192-222 of the upper half, the multiplication sign 215 apart.
    Each one goes to the code unit 32 above it. *)
Definition is_upper (c : ascii) : bool :=
  let n := nat_of_ascii c in
  (((65 <=? n) && (n <=? 90))
   || ((192 <=? n) && (n <=? 222) && negb (n =? 215)))%nat.

Definition lower (c : ascii) : ascii :=
  if is_upper c then ascii_of_nat (nat_of_ascii c + 32) else c.

(** [s.toLowerCase()] *)
Fixpoint toLowerCase (s : string) : string :=
  match s with
  | EmptyString => EmptyString
  | String c rest => String (lower c) (toLowerCase rest)
  end.

(** White space in the sense of [String.prototype.trim]: tab, line feed,
    vertical tab, form feed, carriage return, space and the no-break space
    (code unit 160). *)
Definition is_space (c : ascii) : bool :=
  let n := nat_of_ascii c in
  (((9 <=? n) && (n <=? 13)) || (n =? 32) || (n =? 160))%nat.

Fixpoint trimStart (s : string) : string :=
  match s with
  | EmptyString => EmptyString
  | String c rest => if is_space c then trimStart rest else s
  end.

Fixpoint rev (s : string) : string :=
  match s with
  | EmptyString => EmptyString
  | String c rest => rev rest ++ String c EmptyString
  end.

(** [s.trim()] *)
Definition trim (s : string) : string := rev (trimStart (rev (trimStart s))).

Fixpoint drop (n : nat) (s : string) : string :=
  match n, s with
  | O, _ => s
  | S n', String _ rest => drop n' rest
  | S _, EmptyString => EmptyString
  end.

(** [s.replace(pat, rep)] with a string pattern: the first occurrence
    only.  The replacement strings of this program hold no [$]. *)
Fixpoint replace (pat rep s : string) : string :=
  if prefix pat s then rep ++ drop (String.length pat) s
  else match s with
       | EmptyString => EmptyString
       | String c rest => String c (replace pat rep rest)
       end.

(** [s.split('/')]: never empty; [''.split('/')] is [['']]. *)
Fixpoint split_slash (s : string) : list string :=
  match s with
  | EmptyString => [EmptyString]
  | String c rest =>
      if Ascii.eqb c "/" then EmptyString :: split_slash rest
      else match split_slash rest with
           | seg :: more => String c seg :: more
           | [] => [String c EmptyString]
           end
  end.

(** [segs.join('/')] *)
Definition join_slash (segs : list string) : string := String.concat "/" segs.

(** [Boolean(s)] for a string: non-empty. *)
Definition nonempty (s : string) : bool :=
  match s with EmptyString => false | _ => true end.

(** [list.includes(s)] *)
Definition includes (l : list string) (s : string) : bool :=
  existsb (String.eqb s) l.

End Str.

(** ** JavaScript values that JSON can carry *)

Definition number := spec_float.

Inductive json : Type :=
| JNull
| JBool (b : bool)
| JNum (x : number)
| JStr (s : string)
| JArr (elems : list json)
| JObj (fields : list (string * json)).

(** [isFinite(x)] on a number *)
Definition isFinite (x : number) : bool :=
  match x with
  | S754_zero _ | S754_finite _ _ _ => true
  | S754_infinity _ | S754_nan => false
  end.

(** [x < 0] on a number *)
Definition lt_zero (x : number) : bool := SFltb x (S754_zero false).

(** [!v]: the falsy values are [null], [false], [0], [-0], [NaN] and the
    empty string. *)
Definition falsy (v : json) : bool :=
  match v with
  | JNull | JBool false => true
  | JNum (S754_zero _) | JNum S754_nan => true
  | JStr EmptyString => true
  | _ => false
  end.

(** Exceptions a JavaScript computation of this program can throw. *)
Inductive exn : Type :=
| SyntaxError
| TypeError
| Error (message : string).

Inductive outcome (A : Type) : Type :=
| Ok (a : A)
| Throw (e : exn).
Arguments Ok {A} a.
Arguments Throw {A} e.

Fixpoint lookup (k : string) (fields : list (string * json)) : option json :=
  match fields with
  | [] => None
  | (k', v) :: rest => if String.eqb k k' then Some v else lookup k rest
  end.

(** [v.k] for the keys this program reads ([id], [name], [price],
    [size]), none of which is a property of arrays, strings, numbers or
    booleans: [None] is [undefined], and reading a property of [null]
    throws. *)
Definition prop (k : string) (v : json) : outcome (option json) :=
  match v with
  | JNull => Throw TypeError
  | JObj fields => Ok (lookup k fields)
  | _ => Ok None
  end.

(** [k in v]: throws unless [v] is an object (arrays are objects). *)
Definition has_key (k : string) (v : json) : outcome bool :=
  match v with
  | JObj fields => Ok (match lookup k fields with Some _ => true | None => false end)
  | JArr _ => Ok false
  | _ => Throw TypeError
  end.

Fixpoint assign (k : string) (x : json) (fields : list (string * json))
  : list (string * json) :=
  match fields with
  | [] => [(k, x)]
  | (k', v) :: rest =>
      if String.eqb k k' then (k', x) :: rest else (k', v) :: assign k x rest
  end.

(** [v.k = x]: on an object the property is overwritten in place or
    appended; on anything else the stored data does not change. *)
Definition set_prop (k : string) (x : json) (v : json) : json :=
  match v with
  | JObj fields => JObj (assign k x fields)
  | _ => v
  end.

(** ** The JSON boundary *)

(** A JSON document, as [JSON.parse] sees it. *)
Inductive text : Type :=
| Empty                 (* the empty string *)
| Malformed             (* non-empty, rejected by [JSON.parse] *)
| Encodes (v : json).   (* accepted by [JSON.parse], which returns [v] *)

(** [JSON.parse(t)] *)
Definition JSON_parse (t : text) : outcome json :=
  match t with
  | Empty | Malformed => Throw SyntaxError
  | Encodes v => Ok v
  end.

(** What a value looks like once written: [JSON.stringify] prints both
    zeros as [0] and a number that is not finite as [null]. *)
Fixpoint serial (v : json) : json :=
  match v with
  | JNum (S754_zero _) => JNum (S754_zero false)
  | JNum (S754_finite _ _ _) => v
  | JNum _ => JNull
  | JArr elems => JArr (map serial elems)
  | JObj fields => JObj (map (fun kv => (fst kv, serial (snd kv))) fields)
  | _ => v
  end.

(** [JSON.stringify(v)] *)
Definition JSON_stringify (v : json) : text := Encodes (serial v).

(** [!t] for a string that holds a document. *)
Definition is_empty (t : text) : bool :=
  match t with Empty => true | _ => false end.

(** ** Computations that may throw, and computations over the data file *)

Definition obind {A B : Type} (c : outcome A) (k : A -> outcome B) : outcome B :=
  match c with
  | Ok a => k a
  | Throw e => Throw e
  end.

Notation "'let?' x := c 'in' k" := (obind c (fun x => k))
  (at level 10, x name, c at level 100, k at level 200).

(** The part of the disk the API touches: the content of [DATA_FILE]
    ([items.json]) and of [DATA_FILE + '.tmp'], [None] when the file does
    not exist. *)
Record store : Type := {
  items_json : option text;
  items_json_tmp : option text
}.

(** An [async] function of the program: it runs from a store, returns or
    throws, and leaves a store. *)
Definition M (A : Type) : Type := store -> outcome A * store.

Definition ret {A : Type} (a : A) : M A := fun st => (Ok a, st).

Definition lift {A : Type} (c : outcome A) : M A := fun st => (c, st).

Definition bind {A B : Type} (c : M A) (k : A -> M B) : M B :=
  fun st =>
    match c st with
    | (Ok a, st') => k a st'
    | (Throw e, st') => (Throw e, st')
    end.

(** [try { c } catch (err) { h }] *)
Definition try_catch {A : Type} (c : M A) (h : exn -> M A) : M A :=
  fun st =>
    match c st with
    | (Ok a, st') => (Ok a, st')
    | (Throw e, st') => h e st'
    end.

Notation "x <- c ;; k" := (bind c (fun x => k))
  (at level 100, c at next level, right associativity).

(** ** Persistence: [readItems] and [writeItems] *)

(** [readItems()]: [ENOENT] gives the empty list; [txt || '[]'] reads an
    empty file as ['[]']; a [SyntaxError] of [JSON.parse] is thrown on. *)
Definition readItems : M json :=
  fun st =>
    match items_json st with
    | None => (Ok (JArr []), st)
    | Some txt =>
        (JSON_parse (if is_empty txt then Encodes (JArr []) else txt), st)
    end.

(** [writeItems(items)]: write the temporary file, then rename it over
    the data file. *)
Definition writeItems (items : json) : M unit :=
  fun st =>
    let written := {| items_json := items_json st;
                      items_json_tmp := Some (JSON_stringify items) |} in
    (Ok tt, {| items_json := items_json_tmp written;
               items_json_tmp := None |}).

(** ** [parseJsonBody] *)

(** [body] is the concatenation of the chunks received. *)
Definition parseJsonBody (body : text) : outcome json :=
  if is_empty body then Ok JNull
  else match JSON_parse body with
       | Ok v => Ok v
       | Throw _ => Throw (Error "Invalid JSON")
       end.

(** ** [validateItemPayload] *)

Definition allowedSizes : list string :=
  ["s"; "m"; "l"; "small"; "medium"; "large"].

(** [!isPartial || (k in payload)], with JavaScript's short circuit. *)
Definition checked (isPartial : bool) (k : string) (payload : json)
  : outcome bool :=
  if negb isPartial then Ok true else has_key k payload.

(** [typeof v !== 'string' || v.trim() === ''] *)
Definition bad_name (v : option json) : bool :=
  match v with
  | Some (JStr s) => String.eqb (Str.trim s) ""
  | _ => true
  end.

(** [typeof v !== 'number' || !isFinite(v) || v < 0] *)
Definition bad_price (v : option json) : bool :=
  match v with
  | Some (JNum x) => negb (isFinite x) || lt_zero x
  | _ => true
  end.

(** [typeof v !== 'string' || !allowedSizes.includes(v.toLowerCase())] *)
Definition bad_size (v : option json) : bool :=
  match v with
  | Some (JStr s) => negb (Str.includes allowedSizes (Str.toLowerCase s))
  | _ => true
  end.

Definition name_message : string := "name must be a non-empty string".
Definition price_message : string := "price must be a non-negative number".
Definition size_message : string :=
  "size must be one of s,m,l (or small,medium,large)".

(** One [if (...) { if (...) errors.push(message) }] block. *)
Definition validate_field (isPartial : bool) (k : string)
  (bad : option json -> bool) (message : string) (payload : json)
  (errors : list string) : outcome (list string) :=
  let? wanted := checked isPartial k payload in
  if wanted then
    let? v := prop k payload in
    Ok (if bad v then errors ++ [message] else errors)
  else Ok errors.

Definition validateItemPayload (payload : json) (isPartial : bool)
  : outcome (list string) :=
  let errors := [] in
  let? errors := validate_field isPartial "name" bad_name name_message payload errors in
  let? errors := validate_field isPartial "price" bad_price price_message payload errors in
  let? errors := validate_field isPartial "size" bad_size size_message payload errors in
  Ok errors.

(** ** Node's [path] module, POSIX flavour *)

Module Path.

(** One turn of the loop of [normalizeString], taken at the end of a
    segment: an empty segment or [.] is skipped; [..] removes the last
    segment of the result unless there is none or it is itself [..], in
    which case [..] is kept when [allowAboveRoot] holds; any other
    segment is appended.  [res] is the result so far, last segment
    first. *)
Definition consume (allowAboveRoot : bool) (res : list string) (seg : string)
  : list string :=
  if String.eqb seg "" || String.eqb seg "." then res
  else if String.eqb seg ".." then
    match res with
    | top :: below =>
        if String.eqb top ".." then
          if allowAboveRoot then ".." :: res else res
        else below
    | [] => if allowAboveRoot then [".."] else []
    end
  else seg :: res.

(** [normalizeString(path, allowAboveRoot, '/', isPosixPathSeparator)],
    on the segments of [path]; the result is the list of its segments. *)
Definition normalizeString (allowAboveRoot : bool) (segs : list string)
  : list string :=
  List.rev (fold_left (consume allowAboveRoot) segs []).

(** [path.normalize(p)] *)
Definition normalize (p : string) : string :=
  if String.eqb p "" then "."
  else
    let isAbsolute := Str.startsWith p "/" in
    let trailingSeparator := Str.endsWith p "/" in
    let q := Str.join_slash
               (normalizeString (negb isAbsolute) (Str.split_slash p)) in
    if String.eqb q "" then
      if isAbsolute then "/" else if trailingSeparator then "./" else "."
    else
      let q := if trailingSeparator then (q ++ "/")%string else q in
      if isAbsolute then ("/" ++ q)%string else q.

(** [path.join(...args)] *)
Definition join (args : list string) : string :=
  match filter Str.nonempty args with
  | [] => "."
  | parts => normalize (Str.join_slash parts)
  end.

End Path.

(** ** Requests and responses *)

Record request : Type := {
  method : string;
  pathname : string;      (* [url.parse(req.url).pathname] *)
  body : text
}.

Inductive entity : Type :=
| Document (t : text)     (* [res.end(JSON.stringify(...))] *)
| Page (s : string).      (* [res.end(content)] *)

Record response : Type := {
  status : nat;
  content_type : string;
  sent : entity
}.

(** ** [serveStaticHtml] *)

(** [s.replace(/^(\.\.[/\\])+/, '')] *)
Fixpoint strip_parents (s : string) : string :=
  match s with
  | String a (String b (String c rest)) =>
      if Ascii.eqb a "." && Ascii.eqb b "."
         && (Ascii.eqb c "/" || Ascii.eqb c "\")
      then strip_parents rest
      else s
  | _ => s
  end.

Section Static.

(** The directory of [index.js], and the files under it that can be read
    as text. *)
Variable __dirname : string.
Variable readFile : string -> option string.

Definition PUBLIC_DIR : string := Path.join [__dirname; "public"].

Definition requested_path (pathname : string) : string :=
  if String.eqb pathname "/" then "/index.html" else pathname.

Definition safePath (requested : string) : string :=
  strip_parents (Path.normalize requested).

Definition filePath (requested : string) : string :=
  Path.join [PUBLIC_DIR; safePath requested].

(** [None] is [return false]: the request is left to the API. *)
Definition serveStaticHtml (req : request) : option response :=
  let requested := requested_path (pathname req) in
  if negb (Str.endsWith requested ".html") then None
  else
    match readFile (filePath requested) with
    | Some content =>
        Some {| status := 200;
                content_type := "text/html; charset=utf-8";
                sent := Page content |}
    | None =>
        match readFile (Path.join [PUBLIC_DIR; "404.html"]) with
        | Some nf =>
            Some {| status := 404;
                    content_type := "text/html; charset=utf-8";
                    sent := Page nf |}
        | None =>
            Some {| status := 404;
                    content_type := "text/plain; charset=utf-8";
                    sent := Page "404 Not Found" |}
        end
    end.

End Static.

(** ** [handleApi] *)

(** The three envelopes the handlers send. *)
Definition success (data : json) : json :=
  JObj [("success", JBool true); ("data", data)].

Definition failure (message : string) : json :=
  JObj [("success", JBool false); ("error", JStr message)].

Definition failures (errors : list string) : json :=
  JObj [("success", JBool false); ("errors", JArr (map JStr errors))].

(** [res.writeHead(code, {'Content-Type':'application/json'});
    res.end(JSON.stringify(v))] *)
Definition respond (code : nat) (v : json) : response :=
  {| status := code;
     content_type := "application/json";
     sent := Document (JSON_stringify v) |}.

(** The array methods [find], [findIndex], [push] and [splice] exist on
    arrays only: calling one on anything else is a [TypeError]. *)
Definition elements (items : json) : outcome (list json) :=
  match items with
  | JArr elems => Ok elems
  | _ => Throw TypeError
  end.

(** [i.id === id], for a string [id] *)
Definition id_is (id : string) (i : json) : outcome bool :=
  let? v := prop "id" i in
  Ok (match v with
      | Some (JStr s) => String.eqb s id
      | _ => false
      end).

(** [items.find(i => i.id === id)] *)
Fixpoint find (id : string) (items : list json) : outcome (option json) :=
  match items with
  | [] => Ok None
  | i :: rest =>
      let? hit := id_is id i in
      if hit then Ok (Some i) else find id rest
  end.

(** [items.findIndex(i => i.id === id)], [None] for [-1] *)
Fixpoint findIndex (id : string) (items : list json) : outcome (option nat) :=
  match items with
  | [] => Ok None
  | i :: rest =>
      let? hit := id_is id i in
      if hit then Ok (Some 0)
      else let? r := findIndex id rest in Ok (option_map S r)
  end.

(** [items[idx] = x], for [idx] within the array *)
Fixpoint update (idx : nat) (x : json) (items : list json) : list json :=
  match idx, items with
  | O, _ :: rest => x :: rest
  | S n, i :: rest => i :: update n x rest
  | _, [] => []
  end.

(** What [items.splice(idx, 1)] leaves in [items] *)
Fixpoint splice_one (idx : nat) (items : list json) : list json :=
  match idx, items with
  | O, _ :: rest => rest
  | S n, i :: rest => i :: splice_one n rest
  | _, [] => []
  end.

(** [v.toLowerCase().replace('small','s').replace('medium','m')
      .replace('large','l')]; a [TypeError] unless [v] is a string. *)
Definition short_size (v : option json) : outcome json :=
  match v with
  | Some (JStr s) =>
      Ok (JStr (Str.replace "large" "l"
                 (Str.replace "medium" "m"
                   (Str.replace "small" "s" (Str.toLowerCase s)))))
  | _ => Throw TypeError
  end.

(** An object literal: a property whose value is [undefined] is never
    written by [JSON.stringify]. *)
Fixpoint literal (fields : list (string * option json)) : list (string * json) :=
  match fields with
  | [] => []
  | (k, Some v) :: rest => (k, v) :: literal rest
  | (_, None) :: rest => literal rest
  end.

Fixpoint unset (k : string) (fields : list (string * json))
  : list (string * json) :=
  match fields with
  | [] => []
  | (k', v) :: rest =>
      if String.eqb k k' then unset k rest else (k', v) :: unset k rest
  end.

(** [item.k = v] where [v] may be [undefined] *)
Definition write_prop (k : string) (v : option json) (item : json) : json :=
  match v with
  | Some x => set_prop k x item
  | None => match item with
            | JObj fields => JObj (unset k fields)
            | _ => item
            end
  end.

(** [if (k in payload) item.k = payload.k] *)
Definition copy_field (k : string) (payload item : json) : outcome json :=
  let? present := has_key k payload in
  if present then
    let? v := prop k payload in Ok (write_prop k v item)
  else Ok item.

(** [if ('size' in payload) item.size = payload.size.toLowerCase()...] *)
Definition copy_size (payload item : json) : outcome json :=
  let? present := has_key "size" payload in
  if present then
    let? v := prop "size" payload in
    let? size := short_size v in
    Ok (set_prop "size" size item)
  else Ok item.

(** The item a POST creates. *)
Definition newItem (uuid : string) (payload : json) : outcome json :=
  let? name := prop "name" payload in
  let? price := prop "price" payload in
  let? size := prop "size" payload in
  let? size := short_size size in
  Ok (JObj (literal [("id", Some (JStr uuid)); ("name", name);
                     ("price", price); ("size", Some size)])).

Definition given (id : option string) : bool :=
  match id with Some _ => true | None => false end.

Definition the (id : option string) : string :=
  match id with Some s => s | None => EmptyString end.

Definition missing_body : response := respond 400 (failure "Missing JSON body").
Definition item_not_found : response := respond 404 (failure "Item not found").

(** [GET /api/items] *)
Definition list_items : M response :=
  items <- readItems ;;
  ret (respond 200 (success items)).

(** [GET /api/items/:id] *)
Definition get_item (id : string) : M response :=
  items <- readItems ;;
  elems <- lift (elements items) ;;
  item <- lift (find id elems) ;;
  match item with
  | None => ret item_not_found
  | Some item => ret (respond 200 (success item))
  end.

(** [POST /api/items] *)
Definition create_item (body : text) (uuid : string) : M response :=
  payload <- lift (parseJsonBody body) ;;
  if falsy payload then ret missing_body
  else
    errors <- lift (validateItemPayload payload false) ;;
    if negb (Nat.eqb (List.length errors) 0) then ret (respond 422 (failures errors))
    else
      items <- readItems ;;
      item <- lift (newItem uuid payload) ;;
      elems <- lift (elements items) ;;
      _ <- writeItems (JArr (elems ++ [item])) ;;
      ret (respond 201 (success item)).

(** [PUT /api/items/:id] *)
Definition update_item (id : string) (body : text) : M response :=
  payload <- lift (parseJsonBody body) ;;
  if falsy payload then ret missing_body
  else
    errors <- lift (validateItemPayload payload true) ;;
    if negb (Nat.eqb (List.length errors) 0) then ret (respond 422 (failures errors))
    else
      items <- readItems ;;
      elems <- lift (elements items) ;;
      idx <- lift (findIndex id elems) ;;
      match idx with
      | None => ret item_not_found
      | Some idx =>
          match nth_error elems idx with
          | None => lift (Throw TypeError)
          | Some item =>
              item <- lift (copy_field "name" payload item) ;;
              item <- lift (copy_field "price" payload item) ;;
              item <- lift (copy_size payload item) ;;
              _ <- writeItems (JArr (update idx item elems)) ;;
              ret (respond 200 (success item))
          end
      end.

(** [DELETE /api/items/:id] *)
Definition delete_item (id : string) : M response :=
  items <- readItems ;;
  elems <- lift (elements items) ;;
  idx <- lift (findIndex id elems) ;;
  match idx with
  | None => ret item_not_found
  | Some idx =>
      match nth_error elems idx with
      | None => lift (Throw TypeError)
      | Some removed =>
          _ <- writeItems (JArr (splice_one idx elems)) ;;
          ret (respond 200 (success removed))
      end
  end.

(** The body of the [try] block: the first handler whose test holds. *)
Definition dispatch (req : request) (id : option string) (uuid : string)
  : M response :=
  let m := method req in
  if String.eqb m "GET" && negb (given id) then list_items
  else if String.eqb m "GET" && given id then get_item (the id)
  else if String.eqb m "POST" && negb (given id) then create_item (body req) uuid
  else if String.eqb m "PUT" && given id then update_item (the id) (body req)
  else if String.eqb m "DELETE" && given id then delete_item (the id)
  else ret (respond 405 (failure "Method not allowed")).

(** [pathname.split('/').filter(Boolean)] *)
Definition segments_of (pathname : string) : list string :=
  filter Str.nonempty (Str.split_slash pathname).

(** [segments[n] === s], where [segments[n]] may be [undefined] *)
Definition segment_is (seg : option string) (s : string) : bool :=
  match seg with Some x => String.eqb x s | None => false end.

(** [handleApi(req, res)]: [None] is [return false]; [uuid] is what
    [randomUUID()] returns if it is called. *)
Definition handleApi (req : request) (uuid : string) : M (option response) :=
  let segments := segments_of (pathname req) in
  match segments with
  | [] => ret None
  | first :: _ =>
      if negb (String.eqb first "api") then ret None
      else if negb (segment_is (nth_error segments 1) "items") then
        ret (Some (respond 404 (failure "Not found")))
      else
        let id := nth_error segments 2 in
        try_catch
          (r <- dispatch req id uuid ;; ret (Some r))
          (fun _ => ret (Some (respond 500 (failure "Internal server error"))))
  end.

(** ** The server *)

Section Server.

Variable __dirname : string.
Variable readFile : string -> option string.

(** The request listener: static pages first, then the API, then a 404. *)
Definition server (req : request) (uuid : string) : M response :=
  try_catch
    (match serveStaticHtml __dirname readFile req with
     | Some r => ret r
     | None =>
         api <- handleApi req uuid ;;
         match api with
         | Some r => ret r
         | None => ret (respond 404 (failure "Not found"))
         end
     end)
    (fun _ => ret (respond 500 (failure "Internal server error"))).

End Server.

(** ** Vocabulary of the statements *)

(** What [readItems] returns from a store. *)
Definition stored (st : store) : outcome json := fst (readItems st).

(** The store [writeItems(v)] leaves. *)
Definition saved (v : json) : store :=
  {| items_json := Some (JSON_stringify v); items_json_tmp := None |}.

Definition is_object (v : json) : bool :=
  match v with JObj _ => true | _ => false end.

(** The element is an object whose [id] is the string [id]. *)
Definition has_id (id : string) (i : json) : bool :=
  match i with
  | JObj fields =>
      match lookup "id" fields with
      | Some (JStr s) => String.eqb s id
      | _ => false
      end
  | _ => false
  end.

(** The element is an object, and its [id] is not [id]. *)
Definition other_item (id : string) (i : json) : bool :=
  is_object i && negb (has_id id i).

(** The short form the specification assigns to a lower-cased size. *)
Definition canonical_size (lowered : string) : string :=
  if String.eqb lowered "s" || String.eqb lowered "small" then "s"
  else if String.eqb lowered "m" || String.eqb lowered "medium" then "m"
  else "l".

(** A path segment that names an entry of the directory it stands in. *)
Definition proper (seg : string) : bool :=
  Str.nonempty seg && negb (String.eqb seg ".") && negb (String.eqb seg "..").

(** [p] names something under the directory [root]: it is [root], a
    slash, and a non-empty chain of proper segments. *)
Definition inside (root p : string) : bool :=
  prefix (root ++ "/") p
  && forallb proper (Str.split_slash (Str.drop (String.length root + 1) p)).

(** An item as POST creates it: exactly the four fields, with a string id. *)
Definition item_shaped (v : json) : Prop :=
  exists id name price size,
    v = JObj [("id", JStr id); ("name", name); ("price", price); ("size", size)].

(** The data file holds a list of such items. *)
Definition well_kept (st : store) : Prop :=
  exists elems, stored st = Ok (JArr elems) /\ Forall item_shaped elems.

Definition item_id (v : json) : option string :=
  match v with
  | JObj fields =>
      match lookup "id" fields with
      | Some (JStr s) => Some s
      | _ => None
      end
  | _ => None
  end.

(** The ids of the stored items, in order. *)
Definition stored_ids (st : store) : list (option string) :=
  match stored st with
  | Ok (JArr elems) => map item_id elems
  | _ => []
  end.

Definition fresh_store : store := {| items_json := None; items_json_tmp := None |}.

(** The three conditional assignments of the PUT handler, in order. *)
Definition patch (payload item : json) : outcome json :=
  let? item := copy_field "name" payload item in
  let? item := copy_field "price" payload item in
  copy_size payload item.

(** [payload.k] when it is defined. *)
Definition payload_field (k : string) (payload : json) : option json :=
  match payload with
  | JObj fields => lookup k fields
  | _ => None
  end.

(** What a field must look like for partial validation to accept it. *)
Definition absent_or (bad : option json -> bool) (v : option json) : bool :=
  match v with
  | None => true
  | Some _ => negb (bad v)
  end.

Definition internal_error : response := respond 500 (failure "Internal server error").

(** The fields of an object after [patch] with a payload that passed
    partial validation. *)
Definition patched_fields (payload : json) (fields : list (string * json))
  : list (string * json) :=
  let fields := match payload_field "name" payload with
                | Some v => assign "name" v fields
                | None => fields
                end in
  let fields := match payload_field "price" payload with
                | Some v => assign "price" v fields
                | None => fields
                end in
  match payload_field "size" payload with
  | Some (JStr s) =>
      assign "size" (JStr (canonical_size (Str.toLowerCase s))) fields
  | _ => fields
  end.

(** What one request can do to the store: nothing, append the item a POST
    created, replace the item a PUT patched, or drop the item a DELETE
    removed. *)
Inductive effect (uuid : string) (st : store) : store -> Prop :=
| kept : effect uuid st st
| appended : forall elems payload item,
    stored st = Ok (JArr elems) ->
    validateItemPayload payload false = Ok [] ->
    newItem uuid payload = Ok item ->
    effect uuid st (saved (JArr (elems ++ [item])))
| replaced : forall elems id idx item payload item',
    stored st = Ok (JArr elems) ->
    findIndex id elems = Ok (Some idx) ->
    nth_error elems idx = Some item ->
    validateItemPayload payload true = Ok [] ->
    patch payload item = Ok item' ->
    effect uuid st (saved (JArr (update idx item' elems)))
| removed : forall elems id idx,
    stored st = Ok (JArr elems) ->
    findIndex id elems = Ok (Some idx) ->
    effect uuid st (saved (JArr (splice_one idx elems))).

(** The string holds no slash. *)
Fixpoint slashless (s : string) : bool :=
  match s with
  | EmptyString => true
  | String c rest => negb (Ascii.eqb c "/") && slashless rest
  end.

(** A result of [Path.normalizeString] in the making, last segment first:
    proper segments on top of a run of [..], which is empty unless
    [allowAboveRoot] holds. *)
Definition tidy (allowAboveRoot : bool) (res : list string) : Prop :=
  exists cleans k,
    res = cleans ++ repeat ".." k
    /\ Forall (fun seg => proper seg = true) cleans
    /\ (allowAboveRoot = false -> k = 0).

(** [p] is a normalised path: its segments are those of [res] (last
    first), after a leading slash when it is absolute. *)
Definition normal (absolute : bool) (res : list string) (p : string) : Prop :=
  p = ((if absolute then "/" else "") ++ Str.join_slash (List.rev res))%string
  /\ tidy (negb absolute) res
  /\ Forall (fun seg => slashless seg = true) res
  /\ res <> [].

(** No segment is [..]. *)
Definition dotless (segs : list string) : Prop :=
  Forall (fun seg => seg <> "..") segs.

(** The status codes [handleApi] sends. *)
Definition api_statuses : list nat := [200; 201; 400; 404; 405; 422; 500].


(** The messages of the fields of an object that fail full validation, in
    the order the checks are made. *)
Definition failing_fields (fields : list (string * json)) : list string :=
  (if bad_name (lookup "name" fields) then [name_message] else [])
  ++ (if bad_price (lookup "price" fields) then [price_message] else [])
  ++ (if bad_size (lookup "size" fields) then [size_message] else []).

(** The messages of the fields of an object that are present and fail
    their rule. *)
Definition failing_present_fields (fields : list (string * json)) : list string :=
  (if absent_or bad_name (lookup "name" fields) then [] else [name_message])
  ++ (if absent_or bad_price (lookup "price" fields) then [] else [price_message])
  ++ (if absent_or bad_size (lookup "size" fields) then [] else [size_message]).

(** The handler answers, with one of the API's status codes and a JSON
    body, or throws. *)
Definition answers (c : M response) : Prop :=
  forall st,
    match c st with
    | (Ok r, _) => In (status r) api_statuses /\ content_type r = "application/json"
    | (Throw _, _) => True
    end.

(** The handler leaves the store as it was unless it answers 200 or 201. *)
Definition writes_on_success (c : M response) : Prop :=
  forall st,
    snd (c st) = st
    \/ exists r, fst (c st) = Ok r /\ (status r = 200 \/ status r = 201).

(** The fields of an object as [JSON.stringify] writes them. *)
Definition serial_fields (fields : list (string * json)) : list (string * json) :=
  map (fun kv => (fst kv, serial (snd kv))) fields.

(** Induction on values, through the lists that arrays and objects hold. *)
Section JsonInduction.

Variable P : json -> Prop.
Hypothesis P_null : P JNull.
Hypothesis P_bool : forall b, P (JBool b).
Hypothesis P_num : forall x, P (JNum x).
Hypothesis P_str : forall s, P (JStr s).
Hypothesis P_arr : forall elems, Forall P elems -> P (JArr elems).
Hypothesis P_obj : forall fields, Forall (fun kv => P (snd kv)) fields -> P (JObj fields).

Fixpoint json_nested_ind (v : json) : P v :=
  match v with
  | JNull => P_null
  | JBool b => P_bool b
  | JNum x => P_num x
  | JStr s => P_str s
  | JArr elems =>
      P_arr elems
        ((fix all (l : list json) : Forall P l :=
            match l with
            | [] => Forall_nil P
            | x :: rest => Forall_cons x (json_nested_ind x) (all rest)
            end) elems)
  | JObj fields =>
      P_obj fields
        ((fix all (l : list (string * json)) : Forall (fun kv => P (snd kv)) l :=
            match l with
            | [] => Forall_nil _
            | kv :: rest =>
                Forall_cons kv (json_nested_ind (snd kv)) (all rest)
            end) fields)
  end.

End JsonInduction.

(** * Properties *)

(** ** Values and serialisation *)

Lemma serial_idempotent : forall v, serial (serial v) = serial v.
Proof.
  induction v using json_nested_ind; simpl; try reflexivity.
  - destruct x; reflexivity.
  - f_equal. rewrite map_map. apply map_ext_Forall. exact H.
  - f_equal. rewrite map_map. apply map_ext_Forall.
    eapply Forall_impl; [|exact H]. intros [k x] Hx; simpl in *. now rewrite Hx.
Qed.

Lemma lookup_serial : forall k fields,
  lookup k (map (fun kv => (fst kv, serial (snd kv))) fields)
  = option_map serial (lookup k fields).
Proof.
  induction fields as [|[k' x] rest IH]; simpl; [reflexivity|].
  destruct (String.eqb k k'); [reflexivity | exact IH].
Qed.

Lemma serial_is_string : forall v s, serial v = JStr s -> v = JStr s.
Proof.
  destruct v; simpl; intros s0 H; try discriminate; try exact H.
  destruct x; discriminate.
Qed.

Lemma has_id_serial : forall id i, has_id id (serial i) = has_id id i.
Proof.
  intros id [| | x | | |fields]; simpl; try reflexivity.
  - destruct x; reflexivity.
  - rewrite lookup_serial. destruct (lookup "id" fields) as [v|]; simpl; [|reflexivity].
    destruct v; simpl; try reflexivity. destruct x; reflexivity.
Qed.

Lemma is_object_serial : forall i, is_object (serial i) = is_object i.
Proof. intros [| | x | | |]; simpl; try reflexivity. destruct x; reflexivity. Qed.

Lemma other_item_serial : forall id i, other_item id (serial i) = other_item id i.
Proof. intros; unfold other_item. now rewrite is_object_serial, has_id_serial. Qed.

Lemma item_id_serial : forall i, item_id (serial i) = item_id i.
Proof.
  intros [| | x | | |fields]; simpl; try reflexivity.
  - destruct x; reflexivity.
  - rewrite lookup_serial. destruct (lookup "id" fields) as [v|]; simpl; [|reflexivity].
    destruct v; simpl; try reflexivity. destruct x; reflexivity.
Qed.

(** ** Objects *)

Lemma lookup_assign_same : forall k x fields, lookup k (assign k x fields) = Some x.
Proof.
  induction fields as [|[k' v] rest IH]; simpl.
  - now rewrite String.eqb_refl.
  - destruct (String.eqb k k') eqn:E; simpl; rewrite E; [reflexivity | exact IH].
Qed.

Lemma lookup_assign_other : forall k k' x fields,
  k <> k' -> lookup k (assign k' x fields) = lookup k fields.
Proof.
  intros k k' x fields Hne.
  induction fields as [|[k0 v] rest IH]; simpl.
  - destruct (String.eqb k k') eqn:E; [apply String.eqb_eq in E; contradiction | reflexivity].
  - destruct (String.eqb k' k0) eqn:E0; simpl.
    + apply String.eqb_eq in E0; subst k0.
      destruct (String.eqb k k') eqn:E; [apply String.eqb_eq in E; contradiction | reflexivity].
    + destruct (String.eqb k k0); [reflexivity | exact IH].
Qed.

Lemma keys_assign_present : forall k x fields,
  lookup k fields <> None -> map fst (assign k x fields) = map fst fields.
Proof.
  induction fields as [|[k' v] rest IH]; simpl; intros H.
  - contradiction.
  - destruct (String.eqb k k') eqn:E; simpl; [reflexivity|].
    f_equal. apply IH. exact H.
Qed.

(** ** Running the persistence functions *)

Lemma readItems_run : forall st, readItems st = (stored st, st).
Proof.
  intros st. unfold stored, readItems. destruct (items_json st); reflexivity.
Qed.

Lemma writeItems_run : forall v st, writeItems v st = (Ok tt, saved v).
Proof. reflexivity. Qed.

Lemma stored_saved : forall v, stored (saved v) = Ok (serial v).
Proof. reflexivity. Qed.

Lemma stored_fresh : stored fresh_store = Ok (JArr []).
Proof. reflexivity. Qed.

(** ** Looking an id up *)

Lemma id_is_object : forall id i, is_object i = true -> id_is id i = Ok (has_id id i).
Proof.
  intros id [| | | | |fields]; simpl; try discriminate. intros _.
  unfold id_is; simpl. destruct (lookup "id" fields) as [[]|]; reflexivity.
Qed.

Lemma id_is_true : forall id i, id_is id i = Ok true -> has_id id i = true.
Proof.
  intros id [| | | | |fields]; unfold id_is; simpl; try discriminate.
  destruct (lookup "id" fields) as [[]|]; simpl; congruence.
Qed.

Lemma has_id_id_is : forall id i, has_id id i = true -> id_is id i = Ok true.
Proof.
  intros id i H. destruct i; simpl in H; try discriminate.
  rewrite id_is_object by reflexivity. simpl. now rewrite H.
Qed.

Lemma other_item_id_is : forall id i, other_item id i = true -> id_is id i = Ok false.
Proof.
  intros id i H. unfold other_item in H. apply andb_true_iff in H as [Ho Hn].
  rewrite id_is_object by exact Ho. apply negb_true_iff in Hn. now rewrite Hn.
Qed.

Lemma others_id_is : forall id elems,
  Forall (fun i => other_item id i = true) elems ->
  Forall (fun i => id_is id i = Ok false) elems.
Proof. intros id elems H. eapply Forall_impl; [|exact H]. intros; now apply other_item_id_is. Qed.

Lemma findIndex_none : forall id elems,
  Forall (fun i => id_is id i = Ok false) elems -> findIndex id elems = Ok None.
Proof.
  induction 1 as [|i rest Hi _ IH]; simpl; [reflexivity|].
  rewrite Hi; simpl. now rewrite IH.
Qed.

Lemma find_none : forall id elems,
  Forall (fun i => id_is id i = Ok false) elems -> find id elems = Ok None.
Proof.
  induction 1 as [|i rest Hi _ IH]; simpl; [reflexivity|].
  rewrite Hi; simpl. exact IH.
Qed.

Lemma findIndex_first : forall id before item after,
  Forall (fun i => id_is id i = Ok false) before ->
  id_is id item = Ok true ->
  findIndex id (before ++ item :: after) = Ok (Some (List.length before)).
Proof.
  induction 1 as [|i rest Hi _ IH]; simpl; intros Hit.
  - now rewrite Hit.
  - rewrite Hi; simpl. now rewrite IH.
Qed.

Lemma find_first : forall id before item after,
  Forall (fun i => id_is id i = Ok false) before ->
  id_is id item = Ok true ->
  find id (before ++ item :: after) = Ok (Some item).
Proof.
  induction 1 as [|i rest Hi _ IH]; simpl; intros Hit.
  - now rewrite Hit.
  - rewrite Hi; simpl. now apply IH.
Qed.

Lemma nth_error_middle : forall (before : list json) item after,
  nth_error (before ++ item :: after) (List.length before) = Some item.
Proof. induction before; simpl; auto. Qed.

Lemma update_middle : forall before item after x,
  update (List.length before) x (before ++ item :: after) = before ++ x :: after.
Proof. induction before; simpl; intros; [reflexivity | now rewrite IHbefore]. Qed.

Lemma splice_one_middle : forall before item after,
  splice_one (List.length before) (before ++ item :: after) = before ++ after.
Proof. induction before; simpl; intros; [reflexivity | now rewrite IHbefore]. Qed.

(** ** Sizes *)

Lemma allowed_cases : forall l,
  Str.includes allowedSizes l = true ->
  l = "s" \/ l = "m" \/ l = "l" \/ l = "small" \/ l = "medium" \/ l = "large".
Proof.
  intros l H. unfold Str.includes, allowedSizes in H. simpl in H.
  repeat (apply orb_true_iff in H as [H|H]; [apply String.eqb_eq in H; tauto|]).
  discriminate.
Qed.

Lemma short_size_canonical : forall s,
  Str.includes allowedSizes (Str.toLowerCase s) = true ->
  short_size (Some (JStr s)) = Ok (JStr (canonical_size (Str.toLowerCase s))).
Proof.
  intros s H. apply allowed_cases in H. unfold short_size.
  destruct H as [H|[H|[H|[H|[H|H]]]]]; rewrite H; reflexivity.
Qed.

Lemma canonical_size_short : forall l,
  canonical_size l = "s" \/ canonical_size l = "m" \/ canonical_size l = "l".
Proof.
  intros l. unfold canonical_size.
  destruct (String.eqb l "s" || String.eqb l "small"); [tauto|].
  destruct (String.eqb l "m" || String.eqb l "medium"); tauto.
Qed.

(** ** Validation *)

Lemma good_name : forall v, bad_name v = false -> exists s, v = Some (JStr s).
Proof. intros [[]|]; simpl; try discriminate. eauto. Qed.

Lemma good_price : forall v,
  bad_price v = false -> exists x, v = Some (JNum x) /\ isFinite x = true /\ lt_zero x = false.
Proof.
  intros [[]|]; simpl; try discriminate. intros H.
  apply orb_false_iff in H as [H1 H2]. apply negb_false_iff in H1. eauto.
Qed.

Lemma good_size : forall v,
  bad_size v = false ->
  exists s, v = Some (JStr s) /\ Str.includes allowedSizes (Str.toLowerCase s) = true.
Proof.
  intros [[]|]; simpl; try discriminate. intros H. apply negb_false_iff in H. eauto.
Qed.

(** A payload passes full validation only if it is an object with a
    name, a price and a size that each pass their rule. *)
Lemma full_validation_inv : forall payload,
  validateItemPayload payload false = Ok [] ->
  exists fields,
    payload = JObj fields
    /\ bad_name (lookup "name" fields) = false
    /\ bad_price (lookup "price" fields) = false
    /\ bad_size (lookup "size" fields) = false.
Proof.
  intros payload H.
  destruct payload as [| | | | |fields]; try (cbv in H; discriminate).
  exists fields. unfold validateItemPayload, validate_field, checked in H. simpl in H.
  destruct (bad_name (lookup "name" fields));
    destruct (bad_price (lookup "price" fields));
    destruct (bad_size (lookup "size" fields)); simpl in H; try discriminate.
  auto.
Qed.

Lemma full_validation_object : forall fields,
  bad_name (lookup "name" fields) = false ->
  bad_price (lookup "price" fields) = false ->
  bad_size (lookup "size" fields) = false ->
  validateItemPayload (JObj fields) false = Ok [].
Proof.
  intros fields Hn Hp Hs.
  unfold validateItemPayload, validate_field, checked. simpl.
  now rewrite Hn, Hp, Hs.
Qed.

Lemma partial_validation_object : forall fields,
  validateItemPayload (JObj fields) true = Ok [] <->
  absent_or bad_name (lookup "name" fields) = true
  /\ absent_or bad_price (lookup "price" fields) = true
  /\ absent_or bad_size (lookup "size" fields) = true.
Proof.
  intros fields.
  unfold validateItemPayload, validate_field, checked, has_key, prop, obind, absent_or.
  cbn [negb].
  destruct (lookup "name" fields) as [n|];
    [destruct (bad_name (Some n))|];
    (destruct (lookup "price" fields) as [p|];
     [destruct (bad_price (Some p))|]);
    (destruct (lookup "size" fields) as [z|];
     [destruct (bad_size (Some z))|]);
    cbn; split; intros H; try discriminate; auto;
    destruct H as (?&?&?); discriminate.
Qed.

Lemma partial_validation_array : forall elems,
  validateItemPayload (JArr elems) true = Ok [].
Proof. reflexivity. Qed.

(** Partial validation accepts objects and arrays only. *)
Lemma partial_validation_inv : forall payload,
  validateItemPayload payload true = Ok [] ->
  (exists fields, payload = JObj fields) \/ (exists elems, payload = JArr elems).
Proof.
  intros [| | | | |]; intros H; try (cbv in H; discriminate); eauto.
Qed.

Lemma validated_is_truthy : forall payload isPartial,
  validateItemPayload payload isPartial = Ok [] -> falsy payload = false.
Proof.
  intros payload [|] H.
  - apply partial_validation_inv in H as [[f ->]|[l ->]]; reflexivity.
  - apply full_validation_inv in H as (f & -> & _); reflexivity.
Qed.

(** ** Running the handlers *)

(** Under [/api/items] the answer is that of the handler the method
    selects, and a thrown exception becomes a 500. *)
Lemma handleApi_items : forall req uuid st rest,
  segments_of (pathname req) = "api" :: "items" :: rest ->
  handleApi req uuid st =
    match dispatch req (nth_error rest 0) uuid st with
    | (Ok r, st') => (Ok (Some r), st')
    | (Throw _, st') => (Ok (Some internal_error), st')
    end.
Proof.
  intros req uuid st rest Hseg. unfold handleApi. rewrite Hseg.
  destruct rest as [|id more]; simpl; unfold try_catch, bind, ret.
  - destruct (dispatch req None uuid st) as [[r|e] st']; reflexivity.
  - destruct (dispatch req (Some id) uuid st) as [[r|e] st']; reflexivity.
Qed.

Lemma dispatch_get_all : forall req uuid,
  method req = "GET" -> dispatch req None uuid = list_items.
Proof. intros req uuid H. unfold dispatch. now rewrite H. Qed.

Lemma dispatch_get_one : forall req id uuid,
  method req = "GET" -> dispatch req (Some id) uuid = get_item id.
Proof. intros req id uuid H. unfold dispatch. now rewrite H. Qed.

Lemma dispatch_post : forall req uuid,
  method req = "POST" -> dispatch req None uuid = create_item (body req) uuid.
Proof. intros req uuid H. unfold dispatch. now rewrite H. Qed.

Lemma dispatch_put : forall req id uuid,
  method req = "PUT" -> dispatch req (Some id) uuid = update_item id (body req).
Proof. intros req id uuid H. unfold dispatch. now rewrite H. Qed.

Lemma dispatch_delete : forall req id uuid,
  method req = "DELETE" -> dispatch req (Some id) uuid = delete_item id.
Proof. intros req id uuid H. unfold dispatch. now rewrite H. Qed.

Ltac run :=
  unfold bind, lift, ret; simpl;
  repeat (rewrite ?readItems_run, ?writeItems_run; simpl).

Lemma get_item_found : forall id st before item after,
  stored st = Ok (JArr (before ++ item :: after)) ->
  Forall (fun i => id_is id i = Ok false) before ->
  id_is id item = Ok true ->
  get_item id st = (Ok (respond 200 (success item)), st).
Proof.
  intros id st before item after Hst Hb Hi. unfold get_item. run.
  rewrite Hst; simpl. rewrite (find_first _ _ _ _ Hb Hi). reflexivity.
Qed.

Lemma get_item_unknown : forall id st elems,
  stored st = Ok (JArr elems) ->
  Forall (fun i => id_is id i = Ok false) elems ->
  get_item id st = (Ok item_not_found, st).
Proof.
  intros id st elems Hst Hall. unfold get_item. run.
  rewrite Hst; simpl. rewrite (find_none _ _ Hall). reflexivity.
Qed.

Lemma newItem_valid : forall uuid payload,
  validateItemPayload payload false = Ok [] ->
  exists n p s,
    payload_field "name" payload = Some (JStr n)
    /\ payload_field "price" payload = Some (JNum p)
    /\ payload_field "size" payload = Some (JStr s)
    /\ Str.includes allowedSizes (Str.toLowerCase s) = true
    /\ newItem uuid payload =
         Ok (JObj [("id", JStr uuid); ("name", JStr n); ("price", JNum p);
                   ("size", JStr (canonical_size (Str.toLowerCase s)))]).
Proof.
  intros uuid payload H.
  apply full_validation_inv in H as (fields & -> & Hn & Hp & Hs).
  apply good_name in Hn as (n & Hn).
  apply good_price in Hp as (p & Hp & _).
  apply good_size in Hs as (s & Hs & Hin).
  exists n, p, s. simpl. repeat split; auto.
  unfold newItem, prop, obind.
  rewrite Hn, Hp, Hs, (short_size_canonical _ Hin). reflexivity.
Qed.

Lemma create_item_run : forall payload uuid st elems item,
  validateItemPayload payload false = Ok [] ->
  stored st = Ok (JArr elems) ->
  newItem uuid payload = Ok item ->
  create_item (Encodes payload) uuid st
  = (Ok (respond 201 (success item)), saved (JArr (elems ++ [item]))).
Proof.
  intros payload uuid st elems item Hv Hst Hnew. unfold create_item. run.
  rewrite (validated_is_truthy _ _ Hv). run. rewrite Hv. run.
  rewrite Hst, Hnew. reflexivity.
Qed.

Lemma update_item_run : forall id payload st before item after item',
  validateItemPayload payload true = Ok [] ->
  stored st = Ok (JArr (before ++ item :: after)) ->
  Forall (fun i => id_is id i = Ok false) before ->
  id_is id item = Ok true ->
  patch payload item = Ok item' ->
  update_item id (Encodes payload) st
  = (Ok (respond 200 (success item')), saved (JArr (before ++ item' :: after))).
Proof.
  intros id payload st before item after item' Hv Hst Hb Hi Hp.
  unfold update_item. run.
  rewrite (validated_is_truthy _ _ Hv). run. rewrite Hv. run.
  rewrite Hst; simpl. rewrite (findIndex_first _ _ _ _ Hb Hi).
  rewrite nth_error_middle.
  unfold patch in Hp.
  destruct (copy_field "name" payload item) as [i1|]; simpl in Hp; [|discriminate].
  destruct (copy_field "price" payload i1) as [i2|]; simpl in Hp; [|discriminate].
  rewrite Hp. simpl. now rewrite update_middle.
Qed.

Lemma update_item_unknown : forall id payload st elems,
  validateItemPayload payload true = Ok [] ->
  stored st = Ok (JArr elems) ->
  Forall (fun i => id_is id i = Ok false) elems ->
  update_item id (Encodes payload) st = (Ok item_not_found, st).
Proof.
  intros id payload st elems Hv Hst Hall. unfold update_item. run.
  rewrite (validated_is_truthy _ _ Hv). run. rewrite Hv. run.
  rewrite Hst; simpl. now rewrite (findIndex_none _ _ Hall).
Qed.

Lemma delete_item_run : forall id st before item after,
  stored st = Ok (JArr (before ++ item :: after)) ->
  Forall (fun i => id_is id i = Ok false) before ->
  id_is id item = Ok true ->
  delete_item id st
  = (Ok (respond 200 (success item)), saved (JArr (before ++ after))).
Proof.
  intros id st before item after Hst Hb Hi. unfold delete_item. run.
  rewrite Hst; simpl. rewrite (findIndex_first _ _ _ _ Hb Hi).
  rewrite nth_error_middle. simpl. now rewrite splice_one_middle.
Qed.

(** ** Patching an item *)

Lemma patch_valid : forall payload fields,
  validateItemPayload payload true = Ok [] ->
  patch payload (JObj fields) = Ok (JObj (patched_fields payload fields)).
Proof.
  intros payload fields Hv.
  destruct (partial_validation_inv _ Hv) as [[pf ->]|[l ->]]; [|reflexivity].
  apply partial_validation_object in Hv as (Hn & Hp & Hs).
  unfold patch, patched_fields, copy_field, copy_size, has_key, prop, obind, payload_field.
  destruct (lookup "name" pf) as [n|]; cbn [write_prop set_prop];
    (destruct (lookup "price" pf) as [p|]; cbn [write_prop set_prop]);
    (destruct (lookup "size" pf) as [z|]; [|reflexivity]);
    unfold absent_or in Hs; apply negb_true_iff in Hs;
    apply good_size in Hs as (s & Hz & Hin);
    injection Hz as ->; rewrite (short_size_canonical _ Hin); reflexivity.
Qed.

Lemma patched_untouched : forall payload fields k,
  payload_field k payload = None \/ (k <> "name" /\ k <> "price" /\ k <> "size") ->
  lookup k (patched_fields payload fields) = lookup k fields.
Proof.
  intros payload fields k Hk. unfold patched_fields.
  assert (Hn : k = "name" -> payload_field "name" payload = None)
    by (intros ->; destruct Hk as [H|(H&_)]; [exact H | now elim H]).
  assert (Hp : k = "price" -> payload_field "price" payload = None)
    by (intros ->; destruct Hk as [H|(_&H&_)]; [exact H | now elim H]).
  assert (Hs : k = "size" -> payload_field "size" payload = None)
    by (intros ->; destruct Hk as [H|(_&_&H)]; [exact H | now elim H]).
  clear Hk.
  destruct (string_dec k "size") as [Es|Es].
  - rewrite (Hs Es). subst k.
    destruct (payload_field "name" payload);
      destruct (payload_field "price" payload);
      rewrite ?lookup_assign_other by discriminate; reflexivity.
  - transitivity
      (lookup k
         (match payload_field "price" payload with
          | Some v =>
              assign "price" v
                (match payload_field "name" payload with
                 | Some v0 => assign "name" v0 fields
                 | None => fields
                 end)
          | None =>
              match payload_field "name" payload with
              | Some v0 => assign "name" v0 fields
              | None => fields
              end
          end)).
    { destruct (payload_field "size" payload) as [[]|];
        rewrite ?lookup_assign_other by exact Es; reflexivity. }
    destruct (string_dec k "price") as [Ep|Ep].
    + rewrite (Hp Ep). subst k.
      destruct (payload_field "name" payload);
        rewrite ?lookup_assign_other by discriminate; reflexivity.
    + destruct (payload_field "price" payload);
        rewrite ?lookup_assign_other by exact Ep.
      * destruct (string_dec k "name") as [En|En].
        -- now rewrite (Hn En).
        -- destruct (payload_field "name" payload);
             rewrite ?lookup_assign_other by exact En; reflexivity.
      * destruct (string_dec k "name") as [En|En].
        -- now rewrite (Hn En).
        -- destruct (payload_field "name" payload);
             rewrite ?lookup_assign_other by exact En; reflexivity.
Qed.

Lemma patched_name : forall payload fields v,
  payload_field "name" payload = Some v ->
  lookup "name" (patched_fields payload fields) = Some v.
Proof.
  intros payload fields v H. unfold patched_fields. rewrite H.
  destruct (payload_field "size" payload) as [[]|];
    destruct (payload_field "price" payload);
    rewrite ?lookup_assign_other by discriminate;
    apply lookup_assign_same.
Qed.

Lemma patched_price : forall payload fields v,
  payload_field "price" payload = Some v ->
  lookup "price" (patched_fields payload fields) = Some v.
Proof.
  intros payload fields v H. unfold patched_fields. rewrite H.
  destruct (payload_field "size" payload) as [[]|];
    rewrite ?lookup_assign_other by discriminate;
    apply lookup_assign_same.
Qed.

Lemma patched_size : forall payload fields s,
  payload_field "size" payload = Some (JStr s) ->
  lookup "size" (patched_fields payload fields)
  = Some (JStr (canonical_size (Str.toLowerCase s))).
Proof.
  intros payload fields s H. unfold patched_fields. rewrite H.
  apply lookup_assign_same.
Qed.

Lemma patched_empty : forall fields, patched_fields (JObj []) fields = fields.
Proof. reflexivity. Qed.

(** ** Strings and segments *)

Lemma split_slash_nonempty : forall s, Str.split_slash s <> [].
Proof.
  destruct s as [|c rest]; simpl; [discriminate|].
  destruct (Ascii.eqb c "/"); [discriminate|].
  destruct (Str.split_slash rest); discriminate.
Qed.

Lemma split_slash_cons : forall c rest,
  Ascii.eqb c "/" = false ->
  exists seg more,
    Str.split_slash rest = seg :: more
    /\ Str.split_slash (String c rest) = String c seg :: more.
Proof.
  intros c rest Hc. simpl. rewrite Hc.
  destruct (Str.split_slash rest) as [|seg more] eqn:E.
  - now destruct (split_slash_nonempty rest).
  - now exists seg, more.
Qed.

Lemma split_slash_slashless : forall s,
  Forall (fun seg => slashless seg = true) (Str.split_slash s).
Proof.
  induction s as [|c rest IH]; simpl.
  - repeat constructor.
  - destruct (Ascii.eqb c "/") eqn:Hc.
    + constructor; [reflexivity | exact IH].
    + destruct (Str.split_slash rest) as [|seg more].
      * repeat constructor. simpl. now rewrite Hc.
      * inversion IH as [|? ? Hseg Hmore]; subst.
        constructor; [|exact Hmore]. simpl. now rewrite Hc, Hseg.
Qed.

Lemma split_slash_of_slashless : forall s,
  slashless s = true -> Str.split_slash s = [s].
Proof.
  induction s as [|c rest IH]; simpl; intros H; [reflexivity|].
  apply andb_true_iff in H as [Hc Hrest]. apply negb_true_iff in Hc.
  rewrite Hc, (IH Hrest). reflexivity.
Qed.

Lemma split_slash_app : forall a b,
  Str.split_slash (a ++ String "/" b) = Str.split_slash a ++ Str.split_slash b.
Proof.
  induction a as [|c rest IH]; intros b; simpl; [reflexivity|].
  rewrite IH. destruct (Ascii.eqb c "/"); [reflexivity|].
  destruct (Str.split_slash rest) as [|seg more] eqn:E.
  - now destruct (split_slash_nonempty rest).
  - reflexivity.
Qed.

Lemma join_slash_cons : forall seg more,
  more <> [] ->
  Str.join_slash (seg :: more) = (seg ++ String "/" (Str.join_slash more))%string.
Proof. intros seg [|m ms] H; [now elim H | reflexivity]. Qed.

Lemma split_join : forall segs,
  segs <> [] ->
  Forall (fun seg => slashless seg = true) segs ->
  Str.split_slash (Str.join_slash segs) = segs.
Proof.
  induction segs as [|seg more IH]; intros Hne Hall; [now elim Hne|].
  inversion Hall as [|? ? Hseg Hmore]; subst.
  destruct more as [|m ms].
  - simpl. now apply split_slash_of_slashless.
  - rewrite join_slash_cons by discriminate.
    rewrite split_slash_app, (split_slash_of_slashless _ Hseg), IH; auto.
    discriminate.
Qed.

Lemma string_app_assoc : forall a b c : string,
  ((a ++ b) ++ c = a ++ (b ++ c))%string.
Proof. induction a; simpl; intros; [reflexivity | now rewrite IHa]. Qed.

Lemma join_slash_app : forall l1 l2,
  l1 <> [] -> l2 <> [] ->
  Str.join_slash (l1 ++ l2)
  = (Str.join_slash l1 ++ String "/" (Str.join_slash l2))%string.
Proof.
  induction l1 as [|seg more IH]; intros l2 H1 H2; [now elim H1|].
  destruct more as [|m ms].
  - simpl app. now rewrite join_slash_cons.
  - change ((seg :: m :: ms) ++ l2) with (seg :: ((m :: ms) ++ l2)).
    rewrite join_slash_cons by discriminate.
    rewrite IH by (auto; discriminate).
    rewrite (join_slash_cons seg (m :: ms)) by discriminate.
    now rewrite string_app_assoc.
Qed.

Lemma string_prefix_app : forall a b, prefix a (a ++ b) = true.
Proof.
  induction a as [|c rest IH]; intros b; simpl.
  - now destruct b.
  - destruct (ascii_dec c c) as [_|Hne]; [apply IH | now elim Hne].
Qed.

Lemma string_drop_app : forall a b, Str.drop (String.length a) (a ++ b) = b.
Proof. induction a as [|c rest IH]; intros b; simpl; [now destruct b | apply IH]. Qed.

Lemma string_length_app : forall a b : string,
  String.length (a ++ b) = String.length a + String.length b.
Proof. induction a; simpl; intros; [reflexivity | now rewrite IHa]. Qed.

(** ** Suffixes *)

Lemma endsWith_refl : forall s, Str.endsWith s s = true.
Proof. destruct s; cbn [Str.endsWith]; now rewrite String.eqb_refl. Qed.

Lemma endsWith_app : forall a b suffix,
  Str.endsWith b suffix = true -> Str.endsWith (a ++ b) suffix = true.
Proof.
  induction a as [|c rest IH]; intros b suffix H; [exact H|].
  change (String c rest ++ b)%string with (String c (rest ++ b)).
  cbn [Str.endsWith].
  destruct (String.eqb (String c (rest ++ b)) suffix); [reflexivity | now apply IH].
Qed.

(** A string that ends with a suffix that does not end with a slash does
    not end with a slash. *)
Lemma endsWith_excludes_slash : forall suffix s,
  suffix <> EmptyString ->
  Str.endsWith suffix "/" = false ->
  Str.endsWith s suffix = true ->
  Str.endsWith s "/" = false.
Proof.
  intros suffix s Hne Hsuf. induction s as [|c rest IH]; intros H.
  - simpl in H. destruct suffix; [now elim Hne | discriminate].
  - cbn [Str.endsWith] in H.
    destruct (String.eqb_spec (String c rest) suffix) as [->|Hdiff]; [exact Hsuf|].
    cbn [Str.endsWith].
    destruct (String.eqb_spec (String c rest) "/") as [E|_]; [|now apply IH].
    injection E as _ ->. simpl in H. destruct suffix; [now elim Hne | discriminate].
Qed.

Lemma endsWith_last_segment : forall s,
  Str.endsWith s ".html" = true ->
  exists init last,
    Str.split_slash s = init ++ [last] /\ Str.endsWith last ".html" = true.
Proof.
  induction s as [|c rest IH]; intros H; [discriminate|].
  cbn [Str.endsWith] in H.
  destruct (String.eqb_spec (String c rest) ".html") as [E|_].
  - rewrite E. exists [], ".html". split; reflexivity.
  - destruct (IH H) as (init & last & Hsplit & Hlast).
    simpl. destruct (Ascii.eqb c "/").
    + exists (EmptyString :: init), last. rewrite Hsplit. auto.
    + rewrite Hsplit. destruct init as [|i0 init']; simpl.
      * exists [], (String c last). split; [reflexivity|].
        cbn [Str.endsWith]. rewrite Hlast.
        now destruct (String.eqb (String c last) ".html").
      * exists (String c i0 :: init'), last. auto.
Qed.

Lemma html_is_proper : forall seg,
  Str.endsWith seg ".html" = true -> proper seg = true.
Proof.
  intros seg H. unfold proper.
  destruct (String.eqb_spec seg ".") as [->|_]; [discriminate|].
  destruct (String.eqb_spec seg "..") as [->|_]; [discriminate|].
  destruct seg; [discriminate | reflexivity].
Qed.

Lemma proper_inv : forall seg,
  proper seg = true ->
  String.eqb seg "" = false /\ String.eqb seg "." = false /\ String.eqb seg ".." = false.
Proof.
  intros seg H. unfold proper in H.
  apply andb_true_iff in H as [H H2]. apply andb_true_iff in H as [H0 H1].
  apply negb_true_iff in H1, H2. repeat split; auto.
  destruct seg; [discriminate | reflexivity].
Qed.

(** ** [Path.normalizeString] *)

Lemma consume_proper : forall allow res seg,
  proper seg = true -> Path.consume allow res seg = seg :: res.
Proof.
  intros allow res seg H. apply proper_inv in H as (H0 & H1 & H2).
  unfold Path.consume. now rewrite H0, H1, H2.
Qed.

Lemma consume_improper : forall allow res seg,
  proper seg = false -> seg <> ".." -> Path.consume allow res seg = res.
Proof.
  intros allow res seg H Hdots. unfold Path.consume.
  destruct (String.eqb seg "") eqn:E0; [reflexivity|].
  destruct (String.eqb seg ".") eqn:E1; [reflexivity|].
  destruct (String.eqb seg "..") eqn:E2; [apply String.eqb_eq in E2; contradiction|].
  unfold proper in H. rewrite E1, E2 in H.
  destruct seg; discriminate.
Qed.

Lemma repeat_snoc : forall (x : string) k, repeat x k ++ [x] = x :: repeat x k.
Proof. induction k; simpl; [reflexivity | now rewrite IHk]. Qed.

Lemma consume_tidy : forall allow res seg,
  tidy allow res -> tidy allow (Path.consume allow res seg).
Proof.
  intros allow res seg (cleans & k & -> & Hcl & Hk).
  destruct (proper seg) eqn:Hp.
  - rewrite consume_proper by exact Hp.
    exists (seg :: cleans), k. repeat split; auto.
  - destruct (String.eqb_spec seg "..") as [->|Hd].
    + unfold Path.consume. simpl.
      destruct cleans as [|top below]; simpl.
      * destruct k as [|k']; simpl.
        -- destruct allow; [exists [], 1 | exists [], 0]; repeat split; auto.
           intros; discriminate.
        -- destruct allow.
           ++ exists [], (S (S k')). repeat split; auto. intros; discriminate.
           ++ exists [], (S k'). repeat split; auto.
      * inversion Hcl as [|? ? Htop Hbelow]; subst.
        apply proper_inv in Htop as (_ & _ & ->).
        exists below, k. repeat split; auto.
    + rewrite consume_improper by assumption.
      exists cleans, k. repeat split; auto.
Qed.

Lemma fold_tidy : forall allow segs res,
  tidy allow res -> tidy allow (fold_left (Path.consume allow) segs res).
Proof.
  induction segs as [|seg more IH]; simpl; intros res H; [exact H|].
  apply IH. now apply consume_tidy.
Qed.

Lemma tidy_nil : forall allow, tidy allow [].
Proof. intros allow. exists [], 0. repeat split; auto. Qed.

Lemma tidy_push : forall allow res seg,
  tidy allow res -> proper seg = true -> tidy allow (seg :: res).
Proof.
  intros allow res seg (cleans & k & -> & Hcl & Hk) Hp.
  exists (seg :: cleans), k. repeat split; auto.
Qed.

(** Pushing segments none of which is [..]: the proper ones pile up. *)
Lemma fold_without_dots : forall allow segs res,
  Forall (fun seg => seg <> "..") segs ->
  fold_left (Path.consume allow) segs res
  = List.rev (filter proper segs) ++ res.
Proof.
  induction segs as [|seg more IH]; intros res H; simpl; [reflexivity|].
  inversion H as [|? ? Hseg Hmore]; subst.
  rewrite IH by exact Hmore.
  destruct (proper seg) eqn:Hp.
  - rewrite consume_proper by exact Hp. simpl. now rewrite <- app_assoc.
  - now rewrite consume_improper.
Qed.

(** Normalising the segments of a normalised path gives them back. *)
Lemma fold_tidy_again : forall allow res,
  tidy allow res ->
  fold_left (Path.consume allow) (List.rev res) [] = res.
Proof.
  intros allow res (cleans & k & -> & Hcl & Hk).
  rewrite rev_app_distr, fold_left_app.
  assert (Hdots : fold_left (Path.consume allow) (List.rev (repeat ".." k)) []
                  = repeat ".." k).
  { destruct allow.
    - clear Hk. induction k as [|k' IHk]; [reflexivity|].
      simpl. rewrite fold_left_app, IHk. simpl.
      unfold Path.consume. simpl. destruct k'; reflexivity.
    - rewrite (Hk eq_refl). reflexivity. }
  rewrite Hdots. clear Hdots Hk.
  induction Hcl as [|seg more Hseg Hmore IH]; [reflexivity|].
  simpl. rewrite fold_left_app, IH. simpl.
  now rewrite consume_proper.
Qed.

(** ** Normalised paths *)

Lemma fold_slashless : forall allow segs res,
  Forall (fun seg => slashless seg = true) segs ->
  Forall (fun seg => slashless seg = true) res ->
  Forall (fun seg => slashless seg = true) (fold_left (Path.consume allow) segs res).
Proof.
  induction segs as [|seg more IH]; simpl; intros res Hsegs Hres; [exact Hres|].
  inversion Hsegs as [|? ? Hseg Hmore]; subst.
  apply IH; [exact Hmore|].
  unfold Path.consume.
  destruct (String.eqb seg "" || String.eqb seg "."); [exact Hres|].
  destruct (String.eqb seg "..").
  - destruct res as [|top below].
    + destruct allow; repeat constructor.
    + inversion Hres; subst.
      destruct (String.eqb top ".."); [destruct allow|]; auto.
  - constructor; assumption.
Qed.

Lemma join_slash_snoc_nonempty : forall segs last,
  last <> EmptyString -> Str.join_slash (segs ++ [last]) <> EmptyString.
Proof.
  intros segs last Hlast. destruct segs as [|seg more].
  - exact Hlast.
  - change ((seg :: more) ++ [last]) with (seg :: (more ++ [last])).
    rewrite join_slash_cons by (destruct more; discriminate).
    destruct seg; discriminate.
Qed.

Lemma proper_nonempty : forall seg, proper seg = true -> seg <> EmptyString.
Proof. intros seg H ->. discriminate. Qed.

Lemma eqb_empty_false : forall s, s <> EmptyString -> String.eqb s "" = false.
Proof. intros [|c rest] H; [now elim H | reflexivity]. Qed.

(** What [Path.normalize] returns for a path with no trailing slash whose
    last segment is proper. *)
Lemma normalize_normal : forall p init last,
  Str.endsWith p "/" = false ->
  Str.split_slash p = init ++ [last] ->
  proper last = true ->
  exists below,
    normal (Str.startsWith p "/") (last :: below) (Path.normalize p).
Proof.
  intros p init last Htrail Hsplit Hlast.
  set (allow := negb (Str.startsWith p "/")).
  set (below := fold_left (Path.consume allow) init []).
  exists below.
  assert (Hfold : Path.normalizeString allow (Str.split_slash p)
                  = List.rev (last :: below)).
  { unfold Path.normalizeString. rewrite Hsplit, fold_left_app. simpl.
    now rewrite consume_proper. }
  assert (Hp : String.eqb p "" = false).
  { destruct p; [|reflexivity]. simpl in Hsplit.
    destruct init as [|i init'].
    - injection Hsplit as <-. discriminate Hlast.
    - injection Hsplit as _ Hrest. destruct init'; discriminate. }
  unfold Path.normalize. rewrite Hp, Htrail. fold allow. rewrite Hfold.
  simpl List.rev.
  rewrite (eqb_empty_false _ (join_slash_snoc_nonempty _ _ (proper_nonempty _ Hlast))).
  split; [|split; [|split]].
  - destruct (Str.startsWith p "/"); reflexivity.
  - apply tidy_push; [|exact Hlast].
    unfold allow, below. apply fold_tidy, tidy_nil.
  - pose proof (split_slash_slashless p) as Hall. rewrite Hsplit in Hall.
    apply Forall_app in Hall as [Hinit Hl]. inversion Hl; subst.
    constructor; [assumption|].
    apply fold_slashless; [exact Hinit | constructor].
  - discriminate.
Qed.

Lemma normal_split : forall absolute res p,
  normal absolute res p ->
  Str.split_slash p = (if absolute then [EmptyString] else []) ++ List.rev res.
Proof.
  intros absolute res p (-> & _ & Hsl & Hne).
  assert (Hrev : List.rev res <> [])
    by (intros E; apply Hne; now rewrite <- (rev_involutive res), E).
  assert (Hall : Forall (fun seg => slashless seg = true) (List.rev res))
    by now apply Forall_rev.
  destruct absolute; simpl; now rewrite split_join.
Qed.

Lemma tidy_segments_nonempty : forall allow res,
  tidy allow res -> Forall (fun seg => seg <> EmptyString) res.
Proof.
  intros allow res (cleans & k & -> & Hcl & _).
  apply Forall_app. split.
  - eapply Forall_impl; [|exact Hcl]. intros seg. apply proper_nonempty.
  - apply Forall_forall. intros seg Hin. apply repeat_spec in Hin. now subst.
Qed.

Lemma normal_nonempty : forall absolute res p,
  normal absolute res p -> p <> EmptyString.
Proof.
  intros absolute res p (-> & Ht & _ & Hne).
  destruct absolute; [discriminate|]. simpl.
  destruct res as [|top below]; [now elim Hne|]. simpl.
  apply join_slash_snoc_nonempty.
  apply tidy_segments_nonempty in Ht. now inversion Ht.
Qed.

Lemma startsWith_slash_cons : forall c rest,
  Str.startsWith (String c rest) "/" = Ascii.eqb c "/".
Proof.
  intros c rest. unfold Str.startsWith. cbn [prefix].
  destruct (ascii_dec "/" c) as [<-|Hne].
  - now destruct rest.
  - symmetry. apply Ascii.eqb_neq. congruence.
Qed.

Lemma startsWith_slash_join : forall segs,
  Forall (fun seg => seg <> EmptyString) segs ->
  Forall (fun seg => slashless seg = true) segs ->
  Str.startsWith (Str.join_slash segs) "/" = false.
Proof.
  intros [|seg more] Hne Hsl; [reflexivity|].
  inversion Hne as [|? ? Hseg _]; inversion Hsl as [|? ? Hs _]; subst.
  destruct seg as [|c rest]; [now elim Hseg|].
  simpl in Hs. apply andb_true_iff in Hs as [Hc _]. apply negb_true_iff in Hc.
  assert (Hhead : exists tail, Str.join_slash (String c rest :: more) = String c tail).
  { destruct more; simpl; eexists; reflexivity. }
  destruct Hhead as [tail ->]. now rewrite startsWith_slash_cons.
Qed.

Lemma normal_startsWith : forall absolute res p,
  normal absolute res p -> Str.startsWith p "/" = absolute.
Proof.
  intros absolute res p (-> & Ht & Hsl & _).
  destruct absolute; [apply startsWith_slash_cons|]. simpl.
  apply startsWith_slash_join.
  - apply Forall_rev. eapply tidy_segments_nonempty; exact Ht.
  - now apply Forall_rev.
Qed.

Lemma startsWith_app : forall p q,
  p <> EmptyString -> Str.startsWith (p ++ q) "/" = Str.startsWith p "/".
Proof.
  intros [|c rest] q H; [now elim H|].
  change (String c rest ++ q)%string with (String c (rest ++ q)).
  now rewrite !startsWith_slash_cons.
Qed.

(** ** Stripping the leading [../] *)

Lemma strip_parents_step : forall c rest,
  Ascii.eqb c "/" || Ascii.eqb c "\" = true ->
  strip_parents (String "." (String "." (String c rest))) = strip_parents rest.
Proof. intros c rest H. simpl. now rewrite H. Qed.

Lemma endsWith_html_after_parent : forall c rest,
  Ascii.eqb c "/" || Ascii.eqb c "\" = true ->
  Str.endsWith (String "." (String "." (String c rest))) ".html" = true ->
  Str.endsWith rest ".html" = true.
Proof.
  intros c rest Hc H.
  apply orb_true_iff in Hc as [Hc|Hc]; apply Ascii.eqb_eq in Hc; subst c;
    simpl in H; exact H.
Qed.

Lemma last_segment_not_dots : forall s k,
  Str.endsWith s ".html" = true -> Str.split_slash s <> repeat ".." k.
Proof.
  intros s k H E.
  destruct (endsWith_last_segment _ H) as (init & last & Hsplit & Hlast).
  rewrite Hsplit in E.
  assert (Hin : In last (repeat ".." k)) by (rewrite <- E; apply in_elt).
  apply repeat_spec in Hin. subst last. discriminate.
Qed.

(** A path whose first segment is [..] and which has more segments starts
    with [../]. *)
Lemma split_dots_head : forall s seg more,
  Str.split_slash s = ".." :: seg :: more ->
  exists rest, s = String "." (String "." (String "/" rest)).
Proof.
  intros s seg more H.
  destruct s as [|a s1]; [discriminate|].
  destruct (Ascii.eqb a "/") eqn:Ha; [simpl in H; rewrite Ha in H; discriminate|].
  destruct (split_slash_cons a s1 Ha) as (g1 & m1 & H1 & E1).
  rewrite E1 in H. injection H as -> -> ->.
  destruct s1 as [|b s2]; [discriminate|].
  destruct (Ascii.eqb b "/") eqn:Hb; [simpl in H1; rewrite Hb in H1; discriminate|].
  destruct (split_slash_cons b s2 Hb) as (g2 & m2 & H2 & E2).
  rewrite E2 in H1. injection H1 as -> -> ->.
  destruct s2 as [|c s3]; [discriminate|].
  destruct (Ascii.eqb c "/") eqn:Hc.
  - apply Ascii.eqb_eq in Hc. subst c. now exists s3.
  - destruct (split_slash_cons c s3 Hc) as (g3 & m3 & H3 & E3).
    rewrite E3 in H2. discriminate.
Qed.

(** Nothing to strip: the path does not start with [../], so none of its
    segments is [..]. *)
Lemma unstripped_dotless : forall s k rest,
  (forall tail, s <> String "." (String "." (String "/" tail))) ->
  Str.endsWith s ".html" = true ->
  Str.split_slash s = repeat ".." k ++ rest ->
  dotless rest ->
  dotless (Str.split_slash s).
Proof.
  intros s k rest Hhead Hend Hsplit Hrest.
  destruct k as [|k']; [simpl in Hsplit; now rewrite Hsplit|].
  exfalso. simpl in Hsplit.
  destruct (repeat ".." k' ++ rest) as [|seg more] eqn:E.
  - apply (last_segment_not_dots s 1 Hend). exact Hsplit.
  - destruct (split_dots_head _ _ _ Hsplit) as [tail ->].
    now apply (Hhead tail).
Qed.

(** After the leading [../] and [..\] are stripped from a path that ends
    in [.html] and whose [..] segments all lead, no segment is [..]. *)
Lemma strip_parents_dotless : forall n s k rest,
  String.length s <= n ->
  Str.endsWith s ".html" = true ->
  Str.split_slash s = repeat ".." k ++ rest ->
  dotless rest ->
  dotless (Str.split_slash (strip_parents s))
  /\ Str.endsWith (strip_parents s) ".html" = true.
Proof.
  induction n as [|n IH]; intros s k rest Hlen Hend Hsplit Hrest.
  - destruct s; [discriminate | simpl in Hlen; lia].
  - destruct s as [|a [|b [|c s']]];
      try (split; [|exact Hend];
           apply (unstripped_dotless _ k rest); auto; intros; discriminate).
    destruct (Ascii.eqb a "." && Ascii.eqb b "."
              && (Ascii.eqb c "/" || Ascii.eqb c "\")) eqn:Htest.
    + apply andb_true_iff in Htest as [Hab Hc].
      apply andb_true_iff in Hab as [Ha Hb].
      apply Ascii.eqb_eq in Ha, Hb. subst a b.
      rewrite strip_parents_step by exact Hc.
      pose proof (endsWith_html_after_parent _ _ Hc Hend) as Hend'.
      simpl in Hlen.
      apply orb_true_iff in Hc as [Hc|Hc]; apply Ascii.eqb_eq in Hc; rewrite Hc in *.
      * (* [../]: the first segment is [..] *)
        change (Str.split_slash (String "." (String "." (String "/" s'))))
          with (".." :: Str.split_slash s') in Hsplit.
        destruct k as [|k'].
        -- simpl in Hsplit. rewrite <- Hsplit in Hrest.
           inversion Hrest as [|? ? Hne _]. now elim Hne.
        -- simpl in Hsplit. injection Hsplit as Hsplit.
           apply (IH s' k' rest); [lia | exact Hend' | exact Hsplit | exact Hrest].
      * (* [..\]: the first segment goes on *)
        destruct (Str.split_slash s') as [|seg more] eqn:Es;
          [now destruct (split_slash_nonempty s')|].
        assert (Hfirst : Str.split_slash (String "." (String "." (String "\" s')))
                         = String "." (String "." (String "\" seg)) :: more)
          by (simpl; now rewrite Es).
        rewrite Hfirst in Hsplit.
        destruct k as [|k']; [|discriminate].
        simpl in Hsplit. subst rest. inversion Hrest as [|? ? _ Hmore]; subst.
        destruct (String.eqb_spec seg "..") as [Eseg|Hseg].
        -- rewrite Eseg in Es.
           apply (IH s' 1 more); [lia | exact Hend' | exact Es | exact Hmore].
        -- apply (IH s' 0 (seg :: more)); [lia | exact Hend' | exact Es |].
           constructor; assumption.
    + assert (Hs : strip_parents (String a (String b (String c s')))
                   = String a (String b (String c s')))
        by (simpl; now rewrite Htest).
      rewrite Hs. split; [|exact Hend].
      apply (unstripped_dotless _ k rest); auto.
      intros tail E. injection E as -> -> -> _. discriminate Htest.
Qed.

(** ** Joining a path under a directory *)

Lemma join_slash_snoc_suffix : forall segs last,
  exists before, Str.join_slash (segs ++ [last]) = (before ++ last)%string.
Proof.
  induction segs as [|seg more IH]; intros last.
  - exists EmptyString. reflexivity.
  - destruct (IH last) as [before Hb].
    change ((seg :: more) ++ [last]) with (seg :: (more ++ [last])).
    rewrite join_slash_cons by (destruct more; discriminate).
    rewrite Hb. exists (seg ++ String "/" before)%string.
    now rewrite string_app_assoc.
Qed.

Lemma filter_proper_slashless : forall segs,
  Forall (fun seg => slashless seg = true) segs ->
  Forall (fun seg => slashless seg = true) (filter proper segs).
Proof.
  intros segs H. apply Forall_forall. intros seg Hin.
  apply filter_In in Hin as [Hin _]. rewrite Forall_forall in H. now apply H.
Qed.

Lemma forallb_filter_proper : forall segs, forallb proper (filter proper segs) = true.
Proof.
  intros segs. apply forallb_forall. intros seg Hin.
  now apply filter_In in Hin as [_ Hp].
Qed.

(** Joining a normalised directory and a path with no [..] segment that
    ends in [.html]: the directory, a slash, and the proper segments of
    the path. *)
Lemma join_under : forall absolute res root safe,
  normal absolute res root ->
  dotless (Str.split_slash safe) ->
  Str.endsWith safe ".html" = true ->
  filter proper (Str.split_slash safe) <> []
  /\ Path.join [root; safe]
     = (root ++ String "/" (Str.join_slash (filter proper (Str.split_slash safe))))%string.
Proof.
  intros absolute res root safe Hroot Hdots Hend.
  destruct (endsWith_last_segment _ Hend) as (init & last & Hsplit & Hlast).
  pose proof (html_is_proper _ Hlast) as Hproper.
  assert (Hkept : filter proper (Str.split_slash safe)
                  = filter proper init ++ [last]).
  { rewrite Hsplit, filter_app. simpl. now rewrite Hproper. }
  split; [rewrite Hkept; now destruct (filter proper init)|].
  pose proof (normal_nonempty _ _ _ Hroot) as Hne.
  assert (Hsafe : safe <> EmptyString) by (intros ->; discriminate).
  unfold Path.join.
  assert (Hparts : filter Str.nonempty [root; safe] = [root; safe]).
  { destruct root; [now elim Hne|]. destruct safe; [now elim Hsafe|]. reflexivity. }
  rewrite Hparts.
  change (Str.join_slash [root; safe]) with (root ++ String "/" safe)%string.
  set (p := (root ++ String "/" safe)%string).
  assert (Htrail : Str.endsWith p "/" = false).
  { apply (endsWith_excludes_slash ".html"); [discriminate | reflexivity |].
    unfold p. apply endsWith_app.
    change (String "/" safe) with ("/" ++ safe)%string. now apply endsWith_app. }
  assert (Habs : Str.startsWith p "/" = absolute).
  { unfold p. rewrite startsWith_app by exact Hne.
    eapply normal_startsWith; exact Hroot. }
  assert (Hp : String.eqb p "" = false).
  { apply eqb_empty_false. unfold p. destruct root; discriminate. }
  assert (Hfold : Path.normalizeString (negb absolute) (Str.split_slash p)
                  = List.rev res ++ filter proper (Str.split_slash safe)).
  { unfold Path.normalizeString, p.
    rewrite split_slash_app, (normal_split _ _ _ Hroot).
    rewrite !fold_left_app.
    assert (Hskip : fold_left (Path.consume (negb absolute))
                      (if absolute then [EmptyString] else []) [] = [])
      by (destruct absolute; reflexivity).
    rewrite Hskip.
    destruct Hroot as (_ & Htidy & _ & _).
    rewrite (fold_tidy_again _ _ Htidy).
    rewrite (fold_without_dots _ _ _ Hdots).
    now rewrite rev_app_distr, rev_involutive. }
  unfold Path.normalize. rewrite Hp, Htrail, Habs, Hfold.
  destruct Hroot as (Hrooteq & _ & _ & Hres).
  assert (Hrev : List.rev res <> [])
    by (intros E; apply Hres; now rewrite <- (rev_involutive res), E).
  rewrite Hkept, app_assoc.
  rewrite (eqb_empty_false _ (join_slash_snoc_nonempty _ _ (proper_nonempty _ Hproper))).
  rewrite <- app_assoc.
  rewrite join_slash_app by (auto; destruct (filter proper init); discriminate).
  rewrite Hrooteq.
  destruct absolute; reflexivity.
Qed.

Lemma public_dir_normal : forall dirname,
  exists absolute below, normal absolute ("public" :: below) (PUBLIC_DIR dirname).
Proof.
  intros dirname. unfold PUBLIC_DIR, Path.join.
  destruct dirname as [|c rest].
  - simpl filter. change (Str.join_slash ["public"]) with "public".
    destruct (normalize_normal "public" [] "public") as [below H];
      try reflexivity.
    now exists (Str.startsWith "public" "/"), below.
  - simpl filter.
    change (Str.join_slash [String c rest; "public"])
      with (String c rest ++ String "/" "public")%string.
    destruct (normalize_normal (String c rest ++ String "/" "public")
                (Str.split_slash (String c rest)) "public") as [below H].
    + apply (endsWith_excludes_slash "public"); [discriminate | reflexivity |].
      apply endsWith_app. reflexivity.
    + now rewrite split_slash_app.
    + reflexivity.
    + eauto.
Qed.

Lemma repeat_rev : forall (x : string) k, List.rev (repeat x k) = repeat x k.
Proof.
  induction k as [|k IH]; simpl; [reflexivity|].
  now rewrite IH, repeat_snoc.
Qed.

(** The path [serveStaticHtml] strips has no [..] segment left. *)
Lemma safePath_dotless : forall requested,
  Str.endsWith requested ".html" = true ->
  dotless (Str.split_slash (safePath requested))
  /\ Str.endsWith (safePath requested) ".html" = true.
Proof.
  intros requested Hend.
  destruct (endsWith_last_segment _ Hend) as (init & last & Hsplit & Hlast).
  pose proof (html_is_proper _ Hlast) as Hproper.
  assert (Htrail : Str.endsWith requested "/" = false)
    by (apply (endsWith_excludes_slash ".html"); [discriminate | reflexivity | exact Hend]).
  destruct (normalize_normal _ _ _ Htrail Hsplit Hproper) as [below Hnormal].
  pose proof (normal_split _ _ _ Hnormal) as Hsegs.
  destruct Hnormal as (Heq & (cleans & k & Hres & Hcl & Hk) & _ & _).
  assert (Hend' : Str.endsWith (Path.normalize requested) ".html" = true).
  { rewrite Heq. apply endsWith_app. simpl List.rev.
    destruct (join_slash_snoc_suffix (List.rev below) last) as [before ->].
    now apply endsWith_app. }
  assert (Hclean : dotless (List.rev cleans)).
  { apply Forall_rev. eapply Forall_impl; [|exact Hcl].
    intros seg Hp ->. discriminate. }
  rewrite Hres, rev_app_distr, repeat_rev in Hsegs.
  unfold safePath.
  destruct (Str.startsWith requested "/").
  - rewrite (Hk eq_refl) in Hsegs. simpl in Hsegs.
    apply (strip_parents_dotless _ _ 0 (EmptyString :: List.rev cleans) (le_n _));
      [exact Hend' | exact Hsegs |].
    constructor; [discriminate | exact Hclean].
  - simpl in Hsegs.
    apply (strip_parents_dotless _ _ k (List.rev cleans) (le_n _));
      [exact Hend' | exact Hsegs | exact Hclean].
Qed.


(** * The claims *)

(** ** Request bodies *)

(** C1.  The specification asks for a 400 whenever the body of a POST
    [/api/items] or a PUT [/api/items/{id}] is missing or is not
    well-formed JSON.  The code answers 400 to a missing body only: on a
    body that [JSON.parse] rejects, [parseJsonBody] throws
    [Error('Invalid JSON')], no handler catches it before the [catch] of
    [handleApi], and the response is 500 "Internal server error". *)
Theorem C1_malformed_body_is_answered_500 : forall req uuid st rest,
  segments_of (pathname req) = "api" :: "items" :: rest ->
  (method req = "POST" /\ rest = []) \/ (method req = "PUT" /\ rest <> []) ->
  (body req = Empty ->
     handleApi req uuid st = (Ok (Some missing_body), st))
  /\ (body req = Malformed ->
        handleApi req uuid st = (Ok (Some internal_error), st))
  /\ status missing_body = 400
  /\ status internal_error = 500.
Proof.
  intros req uuid st rest Hseg Hreq.
  rewrite (handleApi_items _ _ _ _ Hseg).
  destruct Hreq as [[Hm ->]|[Hm Hrest]].
  - simpl. rewrite (dispatch_post _ _ Hm).
    repeat split; intros Hb; rewrite Hb; reflexivity.
  - destruct rest as [|id more]; [now elim Hrest|]. simpl.
    rewrite (dispatch_put _ _ _ Hm).
    repeat split; intros Hb; rewrite Hb; reflexivity.
Qed.

Lemma C1_malformed_post_witness :
  handleApi {| method := "POST"; pathname := "/api/items"; body := Malformed |}
    "7c0e9a3e-5a4b-4c58-9d53-1f2f6f0c8a11" fresh_store
  = (Ok (Some internal_error), fresh_store).
Proof.
  apply (C1_malformed_body_is_answered_500
           {| method := "POST"; pathname := "/api/items"; body := Malformed |}
           "7c0e9a3e-5a4b-4c58-9d53-1f2f6f0c8a11" fresh_store []).
  - reflexivity.
  - left. split; reflexivity.
  - reflexivity.
Defined.

(** ** PUT on an id that is not stored *)

(** C2, as stated, fails: the PUT handler looks at the body before it
    looks at the collection.  With no item stored at all, an empty body
    is answered 400 and a payload with a negative price 422. *)
Lemma C2_unknown_id_is_not_always_404 :
  stored fresh_store = Ok (JArr [])
  /\ handleApi {| method := "PUT"; pathname := "/api/items/ghost"; body := Empty |}
       "7c0e9a3e-5a4b-4c58-9d53-1f2f6f0c8a11" fresh_store
     = (Ok (Some (respond 400 (failure "Missing JSON body"))), fresh_store)
  /\ handleApi {| method := "PUT"; pathname := "/api/items/ghost";
                  body := Encodes (JObj [("price", JNum (S754_finite true 1 0))]) |}
       "7c0e9a3e-5a4b-4c58-9d53-1f2f6f0c8a11" fresh_store
     = (Ok (Some (respond 422 (failures [price_message]))), fresh_store).
Proof. repeat split; reflexivity. Qed.

(** C2, amended.  A PUT [/api/items/{id}] for an id that no stored
    element has is answered 404 provided its body is a JSON object (or
    array) that passes partial validation.  An empty body is answered 400
    and a payload with validation errors 422, whatever is stored. *)
Theorem C2_put_unknown_id : forall req uuid st id more,
  method req = "PUT" ->
  segments_of (pathname req) = "api" :: "items" :: id :: more ->
  (forall payload elems,
     body req = Encodes payload ->
     validateItemPayload payload true = Ok [] ->
     stored st = Ok (JArr elems) ->
     Forall (fun i => id_is id i = Ok false) elems ->
     handleApi req uuid st = (Ok (Some (respond 404 (failure "Item not found"))), st))
  /\ (body req = Empty ->
        handleApi req uuid st
        = (Ok (Some (respond 400 (failure "Missing JSON body"))), st))
  /\ (forall payload e errors,
        body req = Encodes payload ->
        falsy payload = false ->
        validateItemPayload payload true = Ok (e :: errors) ->
        handleApi req uuid st
        = (Ok (Some (respond 422 (failures (e :: errors)))), st)).
Proof.
  intros req uuid st id more Hm Hseg.
  rewrite (handleApi_items _ _ _ _ Hseg). simpl.
  rewrite (dispatch_put _ _ _ Hm).
  split; [|split].
  - intros payload elems Hb Hv Hst Hall. rewrite Hb.
    now rewrite (update_item_unknown _ _ _ _ Hv Hst Hall).
  - intros Hb. rewrite Hb. reflexivity.
  - intros payload e errors Hb Hf Hv. rewrite Hb.
    unfold update_item. run. rewrite Hf. run. rewrite Hv. reflexivity.
Qed.

Lemma C2_put_unknown_id_witness :
  handleApi {| method := "PUT"; pathname := "/api/items/ghost";
               body := Encodes (JObj [("price", JNum (S754_finite false 5 0))]) |}
    "7c0e9a3e-5a4b-4c58-9d53-1f2f6f0c8a11" fresh_store
  = (Ok (Some (respond 404 (failure "Item not found"))), fresh_store).
Proof.
  apply (proj1 (C2_put_unknown_id
                  {| method := "PUT"; pathname := "/api/items/ghost";
                     body := Encodes (JObj [("price", JNum (S754_finite false 5 0))]) |}
                  "7c0e9a3e-5a4b-4c58-9d53-1f2f6f0c8a11" fresh_store "ghost" []
                  eq_refl eq_refl)
           (JObj [("price", JNum (S754_finite false 5 0))]) []).
  - reflexivity.
  - reflexivity.
  - reflexivity.
  - constructor.
Defined.

(** ** [readItems] *)

(** C7, as stated, fails on the empty file: the empty text is not valid
    JSON, yet [readItems] returns the empty list, because it parses
    [txt || '[]']. *)
Lemma C7_empty_file_reads_as_empty_list :
  JSON_parse Empty = Throw SyntaxError
  /\ readItems {| items_json := Some Empty; items_json_tmp := None |}
     = (Ok (JArr []), {| items_json := Some Empty; items_json_tmp := None |}).
Proof. split; reflexivity. Qed.

(** C7, amended.  [readItems] returns the empty list when the backing
    file is absent or empty; it throws what [JSON.parse] throws for every
    non-empty content that is not valid JSON; otherwise it returns the
    parsed content.  It never changes the store. *)
Theorem C7_readItems_cases : forall st,
  (items_json st = None -> readItems st = (Ok (JArr []), st))
  /\ (items_json st = Some Empty -> readItems st = (Ok (JArr []), st))
  /\ (forall txt e,
        items_json st = Some txt -> txt <> Empty -> JSON_parse txt = Throw e ->
        readItems st = (Throw e, st))
  /\ (forall txt v,
        items_json st = Some txt -> JSON_parse txt = Ok v ->
        readItems st = (Ok v, st)).
Proof.
  intros st. unfold readItems. repeat split.
  - intros ->. reflexivity.
  - intros ->. reflexivity.
  - intros txt e -> Hne Hp. destruct txt; [now elim Hne | |]; simpl in *; now rewrite <- Hp.
  - intros txt v -> Hp. destruct txt; simpl in *; try discriminate. now rewrite Hp.
Qed.

(** ** Creating and reading back *)

Lemma respond_serial : forall code v,
  respond code (success (serial v)) = respond code (success v).
Proof.
  intros code v. unfold respond, JSON_stringify. simpl.
  now rewrite serial_idempotent.
Qed.

Lemma others_serial : forall id elems,
  Forall (fun i => other_item id i = true) elems ->
  Forall (fun i => id_is id i = Ok false) (map serial elems).
Proof.
  intros id elems H. apply Forall_map. eapply Forall_impl; [|exact H].
  intros i Hi. apply other_item_id_is. now rewrite other_item_serial.
Qed.

(** C3, as the claim has it, fails: the id of the new item is whatever
    [randomUUID()] returns, and no line of the handler compares it with the
    ids in the collection.  Here the data file holds an item with id
    [7c0e...] and [randomUUID()] returns that id again: the POST is answered
    201 with an item whose id is the id of the stored item, both are kept,
    and the GET for that id is answered with the older item, not with the
    one just created. *)
Lemma C3_generated_id_may_be_taken :
  let id := "7c0e9a3e-5a4b-4c58-9d53-1f2f6f0c8a11" in
  let old := JObj [("id", JStr id); ("name", JStr "Tea");
                   ("price", JNum (S754_finite false 3 0)); ("size", JStr "m")] in
  let new := JObj [("id", JStr id); ("name", JStr "Coffee");
                   ("price", JNum (S754_finite false 5 0)); ("size", JStr "l")] in
  let post := {| method := "POST"; pathname := "/api/items";
                 body := Encodes (JObj [("name", JStr "Coffee");
                                        ("price", JNum (S754_finite false 5 0));
                                        ("size", JStr "Large")]) |} in
  let lookup := {| method := "GET"; pathname := String.append "/api/items/" id;
                   body := Empty |} in
  validateItemPayload (JObj [("name", JStr "Coffee");
                             ("price", JNum (S754_finite false 5 0));
                             ("size", JStr "Large")]) false = Ok []
  /\ handleApi post id (saved (JArr [old]))
     = (Ok (Some (respond 201 (success new))), saved (JArr [old; new]))
  /\ has_id id new = true
  /\ has_id id old = true
  /\ handleApi lookup "0b7f0d7e-1f0a-4f3c-8f59-2f3f7a4e9c22" (saved (JArr [old; new]))
     = (Ok (Some (respond 200 (success old))), saved (JArr [old; new]))
  /\ respond 200 (success old) <> respond 200 (success new).
Proof.
  cbv zeta. repeat split; try reflexivity. discriminate.
Qed.

(** C3, amended.  A POST [/api/items] whose payload passes full validation
    is answered 201 with an item whose id is the one [randomUUID()]
    returned, and the collection is the old one with that item appended;
    the handler does not compare that id with the stored ones.  Whenever no
    stored item has that id, the stored items being objects, a GET
    [/api/items/{id}] for that id, sent next, is answered 200 with the same
    item. *)
Theorem C3_created_item_is_retrievable :
  forall req uuid st elems payload,
  method req = "POST" ->
  segments_of (pathname req) = ["api"; "items"] ->
  body req = Encodes payload ->
  validateItemPayload payload false = Ok [] ->
  stored st = Ok (JArr elems) ->
  exists item,
    handleApi req uuid st
    = (Ok (Some (respond 201 (success item))), saved (JArr (elems ++ [item])))
    /\ has_id uuid item = true
    /\ forall lookup_req uuid' more,
         Forall (fun i => other_item uuid i = true) elems ->
         method lookup_req = "GET" ->
         segments_of (pathname lookup_req) = "api" :: "items" :: uuid :: more ->
         handleApi lookup_req uuid' (saved (JArr (elems ++ [item])))
         = (Ok (Some (respond 200 (success item))), saved (JArr (elems ++ [item]))).
Proof.
  intros req uuid st elems payload Hm Hseg Hb Hv Hst.
  destruct (newItem_valid uuid _ Hv) as (n & p & s & _ & _ & _ & _ & Hnew).
  eexists. split; [|split].
  - rewrite (handleApi_items _ _ _ _ Hseg). simpl.
    rewrite (dispatch_post _ _ Hm), Hb.
    rewrite (create_item_run _ _ _ _ _ Hv Hst Hnew). reflexivity.
  - simpl. apply String.eqb_refl.
  - intros lookup_req uuid' more Hfresh Hm' Hseg'.
    rewrite (handleApi_items _ _ _ _ Hseg'). simpl.
    rewrite (dispatch_get_one _ _ _ Hm').
    erewrite get_item_found with (after := []).
    + rewrite respond_serial. reflexivity.
    + rewrite stored_saved. simpl. rewrite map_app. reflexivity.
    + now apply others_serial.
    + apply has_id_id_is. rewrite has_id_serial. simpl. apply String.eqb_refl.
Qed.

Lemma C3_created_item_witness :
  let old := JObj [("id", JStr "a1"); ("name", JStr "Tea");
                   ("price", JNum (S754_finite false 3 0)); ("size", JStr "m")] in
  exists item,
    handleApi {| method := "POST"; pathname := "/api/items";
                 body := Encodes (JObj [("name", JStr "Coffee");
                                        ("price", JNum (S754_finite false 5 0));
                                        ("size", JStr "Medium")]) |}
      "7c0e9a3e-5a4b-4c58-9d53-1f2f6f0c8a11" (saved (JArr [old]))
    = (Ok (Some (respond 201 (success item))), saved (JArr ([old] ++ [item])))
    /\ has_id "7c0e9a3e-5a4b-4c58-9d53-1f2f6f0c8a11" item = true
    /\ handleApi {| method := "GET";
                    pathname := "/api/items/7c0e9a3e-5a4b-4c58-9d53-1f2f6f0c8a11";
                    body := Empty |}
         "0b7f0d7e-1f0a-4f3c-8f59-2f3f7a4e9c22" (saved (JArr ([old] ++ [item])))
       = (Ok (Some (respond 200 (success item))), saved (JArr ([old] ++ [item]))).
Proof.
  intros old.
  destruct (C3_created_item_is_retrievable
              {| method := "POST"; pathname := "/api/items";
                 body := Encodes (JObj [("name", JStr "Coffee");
                                        ("price", JNum (S754_finite false 5 0));
                                        ("size", JStr "Medium")]) |}
              "7c0e9a3e-5a4b-4c58-9d53-1f2f6f0c8a11" (saved (JArr [old])) [old]
              (JObj [("name", JStr "Coffee");
                     ("price", JNum (S754_finite false 5 0));
                     ("size", JStr "Medium")])
              eq_refl eq_refl eq_refl eq_refl eq_refl)
    as (item & Hpost & Hid & Hget).
  exists item. split; [exact Hpost|]. split; [exact Hid|].
  apply (Hget {| method := "GET";
                 pathname := "/api/items/7c0e9a3e-5a4b-4c58-9d53-1f2f6f0c8a11";
                 body := Empty |}
              "0b7f0d7e-1f0a-4f3c-8f59-2f3f7a4e9c22" []).
  - repeat constructor.
  - reflexivity.
  - reflexivity.
Defined.

(** ** Updating *)

Lemma has_id_object : forall id item,
  has_id id item = true -> exists fields, item = JObj fields.
Proof. intros id [| | | | |fields]; simpl; try discriminate. eauto. Qed.

(** C4.  A PUT [/api/items/{id}] on a stored item, with a payload that
    passes partial validation, is answered 200; the collection written is
    the old one with that single item replaced; in the new item every
    field the payload does not hold, and every field other than name,
    price and size (the id among them), is as before, and a name or price
    the payload holds is the new value.  In particular a payload that
    holds only a price changes the price and nothing else. *)
Theorem C4_put_changes_only_supplied_fields :
  forall req uuid st id more payload before fields after,
  method req = "PUT" ->
  segments_of (pathname req) = "api" :: "items" :: id :: more ->
  body req = Encodes payload ->
  validateItemPayload payload true = Ok [] ->
  stored st = Ok (JArr (before ++ JObj fields :: after)) ->
  Forall (fun i => id_is id i = Ok false) before ->
  has_id id (JObj fields) = true ->
  exists fields',
    handleApi req uuid st
    = (Ok (Some (respond 200 (success (JObj fields')))),
       saved (JArr (before ++ JObj fields' :: after)))
    /\ (forall k,
          payload_field k payload = None
          \/ (k <> "name" /\ k <> "price" /\ k <> "size") ->
          lookup k fields' = lookup k fields)
    /\ lookup "id" fields' = lookup "id" fields
    /\ (forall v, payload_field "name" payload = Some v ->
                  lookup "name" fields' = Some v)
    /\ (forall v, payload_field "price" payload = Some v ->
                  lookup "price" fields' = Some v)
    /\ (forall v, payload = JObj [("price", v)] ->
                  lookup "price" fields' = Some v
                  /\ lookup "name" fields' = lookup "name" fields
                  /\ lookup "size" fields' = lookup "size" fields
                  /\ lookup "id" fields' = lookup "id" fields).
Proof.
  intros req uuid st id more payload before fields after
         Hm Hseg Hb Hv Hst Hbefore Hid.
  exists (patched_fields payload fields).
  split; [|split; [|split; [|split; [|split]]]].
  - rewrite (handleApi_items _ _ _ _ Hseg). simpl.
    rewrite (dispatch_put _ _ _ Hm), Hb.
    now rewrite (update_item_run _ _ _ _ _ _ _ Hv Hst Hbefore
                   (has_id_id_is _ _ Hid) (patch_valid _ fields Hv)).
  - intros k Hk. now apply patched_untouched.
  - apply patched_untouched. right. repeat split; discriminate.
  - intros v Hn. now apply patched_name.
  - intros v Hp. now apply patched_price.
  - intros v ->. repeat split.
    + now apply patched_price.
    + apply patched_untouched. now left.
    + apply patched_untouched. now left.
    + apply patched_untouched. now left.
Qed.

Lemma C4_price_only_witness :
  exists fields',
    handleApi {| method := "PUT"; pathname := "/api/items/a1";
                 body := Encodes (JObj [("price", JNum (S754_finite false 5 0))]) |}
      "7c0e9a3e-5a4b-4c58-9d53-1f2f6f0c8a11"
      (saved (JArr [JObj [("id", JStr "a1"); ("name", JStr "Tea");
                          ("price", JNum (S754_finite false 3 0));
                          ("size", JStr "m")]]))
    = (Ok (Some (respond 200 (success (JObj fields')))),
       saved (JArr ([] ++ JObj fields' :: [])))
    /\ lookup "price" fields' = Some (JNum (S754_finite false 5 0))
    /\ lookup "name" fields' = Some (JStr "Tea")
    /\ lookup "size" fields' = Some (JStr "m")
    /\ lookup "id" fields' = Some (JStr "a1").
Proof.
  destruct (C4_put_changes_only_supplied_fields
              {| method := "PUT"; pathname := "/api/items/a1";
                 body := Encodes (JObj [("price", JNum (S754_finite false 5 0))]) |}
              "7c0e9a3e-5a4b-4c58-9d53-1f2f6f0c8a11"
              (saved (JArr [JObj [("id", JStr "a1"); ("name", JStr "Tea");
                                  ("price", JNum (S754_finite false 3 0));
                                  ("size", JStr "m")]]))
              "a1" [] (JObj [("price", JNum (S754_finite false 5 0))]) []
              [("id", JStr "a1"); ("name", JStr "Tea");
               ("price", JNum (S754_finite false 3 0)); ("size", JStr "m")]
              []
              eq_refl eq_refl eq_refl eq_refl eq_refl (Forall_nil _) eq_refl)
    as (fields' & Hrun & _ & _ & _ & _ & Hprice).
  exists fields'. split; [exact Hrun|].
  exact (Hprice _ eq_refl).
Defined.

(** C9.  A PUT [/api/items/{id}] on a stored item whose body is the
    empty JSON object passes validation with no error, is answered 200
    with the item as it was, and writes the collection back unchanged. *)
Theorem C9_put_empty_object_changes_nothing :
  forall req uuid st id more before item after,
  method req = "PUT" ->
  segments_of (pathname req) = "api" :: "items" :: id :: more ->
  body req = Encodes (JObj []) ->
  stored st = Ok (JArr (before ++ item :: after)) ->
  Forall (fun i => id_is id i = Ok false) before ->
  has_id id item = true ->
  validateItemPayload (JObj []) true = Ok []
  /\ handleApi req uuid st
     = (Ok (Some (respond 200 (success item))),
        saved (JArr (before ++ item :: after))).
Proof.
  intros req uuid st id more before item after Hm Hseg Hb Hst Hbefore Hid.
  split; [reflexivity|].
  destruct (has_id_object _ _ Hid) as [fields ->].
  rewrite (handleApi_items _ _ _ _ Hseg). simpl.
  rewrite (dispatch_put _ _ _ Hm), Hb.
  now rewrite (update_item_run _ (JObj []) _ _ _ _ (JObj fields) eq_refl Hst Hbefore
                 (has_id_id_is _ _ Hid) eq_refl).
Qed.

Lemma C9_put_empty_object_witness :
  validateItemPayload (JObj []) true = Ok []
  /\ handleApi {| method := "PUT"; pathname := "/api/items/a1";
                  body := Encodes (JObj []) |}
       "7c0e9a3e-5a4b-4c58-9d53-1f2f6f0c8a11"
       (saved (JArr [JObj [("id", JStr "a1"); ("name", JStr "Tea");
                           ("price", JNum (S754_finite false 3 0));
                           ("size", JStr "m")]]))
     = (Ok (Some (respond 200
                    (success (JObj [("id", JStr "a1"); ("name", JStr "Tea");
                                    ("price", JNum (S754_finite false 3 0));
                                    ("size", JStr "m")])))),
        saved (JArr ([] ++ JObj [("id", JStr "a1"); ("name", JStr "Tea");
                                 ("price", JNum (S754_finite false 3 0));
                                 ("size", JStr "m")] :: []))).
Proof.
  apply (C9_put_empty_object_changes_nothing
           {| method := "PUT"; pathname := "/api/items/a1";
              body := Encodes (JObj []) |}
           "7c0e9a3e-5a4b-4c58-9d53-1f2f6f0c8a11"
           (saved (JArr [JObj [("id", JStr "a1"); ("name", JStr "Tea");
                               ("price", JNum (S754_finite false 3 0));
                               ("size", JStr "m")]]))
           "a1" [] []
           (JObj [("id", JStr "a1"); ("name", JStr "Tea");
                  ("price", JNum (S754_finite false 3 0)); ("size", JStr "m")])
           []);
    try reflexivity.
  constructor.
Defined.

(** ** Deleting *)

(** C8.  A DELETE [/api/items/{id}] on a stored item is answered 200 with
    that item; the collection written is the old one without it; no
    element of what is then stored has that id; and a GET
    [/api/items/{id}] for that id, sent next, is answered 404.  The stored
    collection is a list of objects in which that id occurs once. *)
Theorem C8_deleted_item_is_gone :
  forall req uuid st id more before item after lookup_req uuid' more',
  method req = "DELETE" ->
  segments_of (pathname req) = "api" :: "items" :: id :: more ->
  stored st = Ok (JArr (before ++ item :: after)) ->
  Forall (fun i => other_item id i = true) before ->
  has_id id item = true ->
  Forall (fun i => other_item id i = true) after ->
  method lookup_req = "GET" ->
  segments_of (pathname lookup_req) = "api" :: "items" :: id :: more' ->
  handleApi req uuid st
  = (Ok (Some (respond 200 (success item))), saved (JArr (before ++ after)))
  /\ (exists elems,
        stored (saved (JArr (before ++ after))) = Ok (JArr elems)
        /\ Forall (fun i => has_id id i = false) elems)
  /\ handleApi lookup_req uuid' (saved (JArr (before ++ after)))
     = (Ok (Some (respond 404 (failure "Item not found"))),
        saved (JArr (before ++ after))).
Proof.
  intros req uuid st id more before item after lookup_req uuid' more'
         Hm Hseg Hst Hbefore Hid Hafter Hm' Hseg'.
  assert (Hrest : Forall (fun i => other_item id i = true) (before ++ after))
    by (apply Forall_app; split; assumption).
  split; [|split].
  - rewrite (handleApi_items _ _ _ _ Hseg). simpl.
    rewrite (dispatch_delete _ _ _ Hm).
    now rewrite (delete_item_run _ _ _ _ _ Hst (others_id_is _ _ Hbefore)
                   (has_id_id_is _ _ Hid)).
  - exists (map serial (before ++ after)). split; [reflexivity|].
    apply Forall_map. eapply Forall_impl; [|exact Hrest].
    intros i Hi. rewrite has_id_serial.
    unfold other_item in Hi. apply andb_true_iff in Hi as [_ Hi].
    now apply negb_true_iff in Hi.
  - rewrite (handleApi_items _ _ _ _ Hseg'). simpl.
    rewrite (dispatch_get_one _ _ _ Hm').
    rewrite (get_item_unknown id _ (map serial (before ++ after)));
      [reflexivity | reflexivity |].
    now apply others_serial.
Qed.

Lemma C8_deleted_item_witness :
  handleApi {| method := "DELETE"; pathname := "/api/items/a1"; body := Empty |}
    "7c0e9a3e-5a4b-4c58-9d53-1f2f6f0c8a11"
    (saved (JArr [JObj [("id", JStr "a1"); ("name", JStr "Tea");
                        ("price", JNum (S754_finite false 3 0));
                        ("size", JStr "m")]]))
  = (Ok (Some (respond 200
                 (success (JObj [("id", JStr "a1"); ("name", JStr "Tea");
                                 ("price", JNum (S754_finite false 3 0));
                                 ("size", JStr "m")])))),
     saved (JArr ([] ++ [])))
  /\ (exists elems,
        stored (saved (JArr ([] ++ []))) = Ok (JArr elems)
        /\ Forall (fun i => has_id "a1" i = false) elems)
  /\ handleApi {| method := "GET"; pathname := "/api/items/a1"; body := Empty |}
       "0b7f0d7e-1f0a-4f3c-8f59-2f3f7a4e9c22" (saved (JArr ([] ++ [])))
     = (Ok (Some (respond 404 (failure "Item not found"))),
        saved (JArr ([] ++ []))).
Proof.
  apply (C8_deleted_item_is_gone
           {| method := "DELETE"; pathname := "/api/items/a1"; body := Empty |}
           "7c0e9a3e-5a4b-4c58-9d53-1f2f6f0c8a11"
           (saved (JArr [JObj [("id", JStr "a1"); ("name", JStr "Tea");
                               ("price", JNum (S754_finite false 3 0));
                               ("size", JStr "m")]]))
           "a1" [] []
           (JObj [("id", JStr "a1"); ("name", JStr "Tea");
                  ("price", JNum (S754_finite false 3 0)); ("size", JStr "m")])
           []
           {| method := "GET"; pathname := "/api/items/a1"; body := Empty |}
           "0b7f0d7e-1f0a-4f3c-8f59-2f3f7a4e9c22" []);
    try reflexivity; constructor.
Defined.

(** ** Sizes *)

(** C5.  For every accepted size string, the handlers compute the short
    form the specification assigns to it: any casing of [s] or [small]
    becomes [s], of [m] or [medium] becomes [m], of [l] or [large]
    becomes [l].  The item a POST stores and returns, and the item a PUT
    stores and returns, carry that short form as their size. *)
Theorem C5_sizes_are_stored_in_short_form : forall size,
  Str.includes allowedSizes (Str.toLowerCase size) = true ->
  short_size (Some (JStr size)) = Ok (JStr (canonical_size (Str.toLowerCase size)))
  /\ ((Str.toLowerCase size = "s" \/ Str.toLowerCase size = "small") ->
      canonical_size (Str.toLowerCase size) = "s")
  /\ ((Str.toLowerCase size = "m" \/ Str.toLowerCase size = "medium") ->
      canonical_size (Str.toLowerCase size) = "m")
  /\ ((Str.toLowerCase size = "l" \/ Str.toLowerCase size = "large") ->
      canonical_size (Str.toLowerCase size) = "l")
  /\ (forall req uuid st elems payload,
        method req = "POST" ->
        segments_of (pathname req) = ["api"; "items"] ->
        body req = Encodes payload ->
        validateItemPayload payload false = Ok [] ->
        payload_field "size" payload = Some (JStr size) ->
        stored st = Ok (JArr elems) ->
        exists fields,
          handleApi req uuid st
          = (Ok (Some (respond 201 (success (JObj fields)))),
             saved (JArr (elems ++ [JObj fields])))
          /\ lookup "size" fields
             = Some (JStr (canonical_size (Str.toLowerCase size))))
  /\ (forall req uuid st id more payload before fields after,
        method req = "PUT" ->
        segments_of (pathname req) = "api" :: "items" :: id :: more ->
        body req = Encodes payload ->
        validateItemPayload payload true = Ok [] ->
        payload_field "size" payload = Some (JStr size) ->
        stored st = Ok (JArr (before ++ JObj fields :: after)) ->
        Forall (fun i => id_is id i = Ok false) before ->
        has_id id (JObj fields) = true ->
        exists fields',
          handleApi req uuid st
          = (Ok (Some (respond 200 (success (JObj fields')))),
             saved (JArr (before ++ JObj fields' :: after)))
          /\ lookup "size" fields'
             = Some (JStr (canonical_size (Str.toLowerCase size)))).
Proof.
  intros size Hin.
  split; [now apply short_size_canonical|].
  split; [intros [->| ->]; reflexivity|].
  split; [intros [->| ->]; reflexivity|].
  split; [intros [->| ->]; reflexivity|].
  split.
  - intros req uuid st elems payload Hm Hseg Hb Hv Hsize Hst.
    destruct (newItem_valid uuid _ Hv) as (n & p & s & _ & _ & Hs & _ & Hnew).
    rewrite Hsize in Hs. injection Hs as <-.
    eexists. split.
    + rewrite (handleApi_items _ _ _ _ Hseg). simpl.
      rewrite (dispatch_post _ _ Hm), Hb.
      rewrite (create_item_run _ _ _ _ _ Hv Hst Hnew). reflexivity.
    + reflexivity.
  - intros req uuid st id more payload before fields after
           Hm Hseg Hb Hv Hsize Hst Hbefore Hid.
    exists (patched_fields payload fields). split.
    + rewrite (handleApi_items _ _ _ _ Hseg). simpl.
      rewrite (dispatch_put _ _ _ Hm), Hb.
      now rewrite (update_item_run _ _ _ _ _ _ _ Hv Hst Hbefore
                     (has_id_id_is _ _ Hid) (patch_valid _ fields Hv)).
    + now apply patched_size.
Qed.

Lemma C5_sizes_witness :
  short_size (Some (JStr "SMALL")) = Ok (JStr "s")
  /\ short_size (Some (JStr "Medium")) = Ok (JStr "m")
  /\ short_size (Some (JStr "l")) = Ok (JStr "l").
Proof.
  split; [|split].
  - exact (proj1 (C5_sizes_are_stored_in_short_form "SMALL" eq_refl)).
  - exact (proj1 (C5_sizes_are_stored_in_short_form "Medium" eq_refl)).
  - exact (proj1 (C5_sizes_are_stored_in_short_form "l" eq_refl)).
Defined.

(** ** What a request can do to the store *)

Ltac break_match :=
  match goal with
  | |- context [match ?x with _ => _ end] => destruct x eqn:?
  end.

Ltac step_through :=
  unfold bind, lift, ret; cbv beta;
  repeat (first [rewrite readItems_run | rewrite writeItems_run | break_match];
          cbn [fst snd]; try apply kept).

Lemma no_errors : forall errors : list string,
  negb (Nat.eqb (List.length errors) 0) = false -> errors = [].
Proof. intros [|e errors]; simpl; [reflexivity | discriminate]. Qed.

Lemma elements_inv : forall items elems, elements items = Ok elems -> items = JArr elems.
Proof.
  intros items elems H. destruct items; simpl in H; try discriminate.
  now injection H as ->.
Qed.

Lemma list_items_effect : forall uuid st, effect uuid st (snd (list_items st)).
Proof. intros uuid st. unfold list_items. step_through. Qed.

Lemma get_item_effect : forall uuid id st, effect uuid st (snd (get_item id st)).
Proof. intros uuid id st. unfold get_item. step_through. Qed.

Lemma create_item_effect : forall body uuid st,
  effect uuid st (snd (create_item body uuid st)).
Proof.
  intros body uuid st. unfold create_item. step_through.
  match goal with H : negb _ = false |- _ => apply no_errors in H; subst end.
  match goal with H : elements _ = Ok _ |- _ => apply elements_inv in H; subst end.
  eapply appended; eassumption.
Qed.

Lemma update_item_effect : forall uuid id body st,
  snd (update_item id body st) = st
  \/ exists elems idx item payload item',
       stored st = Ok (JArr elems)
       /\ findIndex id elems = Ok (Some idx)
       /\ nth_error elems idx = Some item
       /\ validateItemPayload payload true = Ok []
       /\ patch payload item = Ok item'
       /\ snd (update_item id body st) = saved (JArr (update idx item' elems))
       /\ effect uuid st (saved (JArr (update idx item' elems))).
Proof.
  intros uuid id body st. unfold update_item.
  unfold bind, lift, ret; cbv beta.
  repeat (first [rewrite readItems_run | rewrite writeItems_run | break_match];
          cbn [fst snd]; try (left; reflexivity)).
  match goal with H : negb _ = false |- _ => apply no_errors in H; subst end.
  match goal with H : elements _ = Ok _ |- _ => apply elements_inv in H; subst end.
  right.
  match goal with
  | Hv : validateItemPayload ?p true = Ok [],
    Hn : copy_field "name" ?p ?i = Ok ?i1,
    Hp : copy_field "price" ?p ?i1 = Ok ?i2,
    Hs : copy_size ?p ?i2 = Ok ?i3 |- _ =>
      assert (Hpatch : patch p i = Ok i3)
        by (unfold patch; rewrite Hn; simpl; rewrite Hp; simpl; exact Hs)
  end.
  do 5 eexists. repeat split; try eassumption.
  eapply replaced; eassumption.
Qed.

Lemma delete_item_effect : forall uuid id st,
  effect uuid st (snd (delete_item id st)).
Proof.
  intros uuid id st. unfold delete_item. step_through.
  match goal with H : elements _ = Ok _ |- _ => apply elements_inv in H; subst end.
  eapply removed; eassumption.
Qed.

Lemma dispatch_effect : forall req id uuid st,
  effect uuid st (snd (dispatch req id uuid st)).
Proof.
  intros req id uuid st. unfold dispatch.
  repeat break_match;
    auto using list_items_effect, get_item_effect, create_item_effect,
               delete_item_effect, kept.
  destruct (update_item_effect uuid (the id) (body req) st)
    as [->|(? & ? & ? & ? & ? & _ & _ & _ & _ & _ & -> & He)];
    [apply kept | exact He].
Qed.

Lemma snd_handled : forall (c : M response) (r0 : response) (st : store),
  snd (try_catch (r <- c ;; ret (Some r)) (fun _ => ret (Some r0)) st) = snd (c st).
Proof.
  intros c r0 st. unfold try_catch, bind, ret.
  destruct (c st) as [[r|e] st']; reflexivity.
Qed.

Lemma handleApi_snd : forall req uuid st,
  snd (handleApi req uuid st) = st
  \/ exists id, snd (handleApi req uuid st) = snd (dispatch req id uuid st).
Proof.
  intros req uuid st. unfold handleApi.
  destruct (segments_of (pathname req)) as [|first rest]; [now left|].
  destruct (negb (String.eqb first "api")); [now left|].
  destruct (negb (segment_is (nth_error (first :: rest) 1) "items")); [now left|].
  cbv zeta. rewrite snd_handled. right. eexists. reflexivity.
Qed.

Lemma dispatch_put_cases : forall req id uuid,
  method req = "PUT" ->
  dispatch req id uuid = update_item (the id) (body req)
  \/ dispatch req id uuid = ret (respond 405 (failure "Method not allowed")).
Proof.
  intros req id uuid Hm. unfold dispatch. rewrite Hm.
  destruct id; simpl; [now left | now right].
Qed.

(** The store after a request, whatever the request. *)
Lemma handleApi_effect : forall req uuid st,
  effect uuid st (snd (handleApi req uuid st)).
Proof.
  intros req uuid st.
  destruct (handleApi_snd req uuid st) as [->|[id ->]];
    [apply kept | apply dispatch_effect].
Qed.

(** A PUT rewrites at most one element, in place. *)
Lemma handleApi_put_effect : forall req uuid st,
  method req = "PUT" ->
  snd (handleApi req uuid st) = st
  \/ exists elems id idx item payload item',
       stored st = Ok (JArr elems)
       /\ findIndex id elems = Ok (Some idx)
       /\ nth_error elems idx = Some item
       /\ validateItemPayload payload true = Ok []
       /\ patch payload item = Ok item'
       /\ snd (handleApi req uuid st) = saved (JArr (update idx item' elems)).
Proof.
  intros req uuid st Hm.
  destruct (handleApi_snd req uuid st) as [->|[id ->]]; [now left|].
  destruct (dispatch_put_cases req id uuid Hm) as [-> | ->]; [|now left].
  destruct (update_item_effect uuid (the id) (body req) st)
    as [->|(elems & idx & item & payload & item' & H1 & H2 & H3 & H4 & H5 & H6 & _)];
    [now left|].
  right. exists elems, (the id), idx, item, payload, item'.
  repeat split; assumption.
Qed.

(** ** The shape of stored items *)

Lemma item_shaped_serial : forall v, item_shaped v -> item_shaped (serial v).
Proof.
  intros v (id & n & p & s & ->). simpl.
  exists id, (serial n), (serial p), (serial s). reflexivity.
Qed.

Lemma well_kept_saved : forall elems,
  Forall item_shaped elems -> well_kept (saved (JArr elems)).
Proof.
  intros elems H. exists (map serial elems). split; [reflexivity|].
  apply Forall_map. eapply Forall_impl; [|exact H]. apply item_shaped_serial.
Qed.

Lemma well_kept_fresh : well_kept fresh_store.
Proof. exists []. split; [reflexivity | constructor]. Qed.

Lemma stored_ids_saved : forall elems,
  stored_ids (saved (JArr elems)) = map item_id elems.
Proof.
  intros elems. unfold stored_ids. rewrite stored_saved. simpl.
  rewrite map_map. apply map_ext. apply item_id_serial.
Qed.

Lemma newItem_shaped : forall uuid payload,
  validateItemPayload payload false = Ok [] ->
  exists item,
    newItem uuid payload = Ok item /\ item_shaped item /\ item_id item = Some uuid.
Proof.
  intros uuid payload Hv.
  destruct (newItem_valid uuid _ Hv) as (n & p & s & _ & _ & _ & _ & Hnew).
  eexists. split; [exact Hnew|]. split; [|reflexivity].
  do 4 eexists. reflexivity.
Qed.

Lemma patch_shaped : forall payload item item',
  validateItemPayload payload true = Ok [] ->
  item_shaped item ->
  patch payload item = Ok item' ->
  item_shaped item' /\ item_id item' = item_id item.
Proof.
  intros payload item item' Hv (id & n & p & s & ->) Hp.
  rewrite (patch_valid _ _ Hv) in Hp. injection Hp as <-.
  unfold patched_fields.
  destruct (payload_field "name" payload);
    destruct (payload_field "price" payload);
    destruct (payload_field "size" payload) as [[]|]; simpl;
    (split; [do 4 eexists; reflexivity | reflexivity]).
Qed.

Lemma Forall_update : forall (P : json -> Prop) idx x elems,
  Forall P elems -> P x -> Forall P (update idx x elems).
Proof.
  intros P idx x elems H Hx. revert idx.
  induction H as [|i rest Hi Hrest IH]; intros [|n]; simpl; auto.
Qed.

Lemma Forall_splice_one : forall (P : json -> Prop) idx elems,
  Forall P elems -> Forall P (splice_one idx elems).
Proof.
  intros P idx elems H. revert idx.
  induction H as [|i rest Hi Hrest IH]; intros [|n]; simpl; auto.
Qed.

Lemma ids_update : forall idx item item' elems,
  nth_error elems idx = Some item ->
  item_id item' = item_id item ->
  map item_id (update idx item' elems) = map item_id elems.
Proof.
  induction idx as [|n IH]; intros item item' [|i rest] Hnth Hid; simpl in *;
    try discriminate.
  - injection Hnth as ->. now rewrite Hid.
  - f_equal. eapply IH; eassumption.
Qed.

Lemma findIndex_some : forall id elems idx,
  findIndex id elems = Ok (Some idx) ->
  exists item, nth_error elems idx = Some item /\ id_is id item = Ok true.
Proof.
  intros id elems. induction elems as [|i rest IH]; simpl; intros idx H.
  - discriminate.
  - destruct (id_is id i) as [[|]|] eqn:Hi; simpl in H; try discriminate.
    + injection H as <-. exists i. split; [reflexivity | exact Hi].
    + destruct (findIndex id rest) as [[n|]|]; simpl in H; try discriminate.
      injection H as <-. simpl. apply IH. reflexivity.
Qed.

Lemma effect_well_kept : forall uuid st st',
  effect uuid st st' -> well_kept st -> well_kept st'.
Proof.
  intros uuid st st' He (elems0 & Hst0 & Hall).
  destruct He as [| elems payload item Hst Hv Hnew
                  | elems id idx item payload item' Hst Hidx Hnth Hv Hp
                  | elems id idx Hst Hidx].
  - exists elems0. auto.
  - rewrite Hst in Hst0. injection Hst0 as ->.
    apply well_kept_saved. apply Forall_app. split; [exact Hall|].
    destruct (newItem_shaped uuid _ Hv) as (item0 & Hnew0 & Hshape & _).
    rewrite Hnew in Hnew0. injection Hnew0 as ->. auto.
  - rewrite Hst in Hst0. injection Hst0 as ->.
    apply well_kept_saved. apply Forall_update; [exact Hall|].
    eapply patch_shaped; [exact Hv | | exact Hp].
    rewrite Forall_forall in Hall. apply Hall. eapply nth_error_In; exact Hnth.
  - rewrite Hst in Hst0. injection Hst0 as ->.
    apply well_kept_saved. now apply Forall_splice_one.
Qed.

Lemma effect_ids : forall uuid st st',
  effect uuid st st' -> well_kept st ->
  stored_ids st' = stored_ids st
  \/ stored_ids st' = stored_ids st ++ [Some uuid]
  \/ exists b x a, stored_ids st = b ++ x :: a /\ stored_ids st' = b ++ a.
Proof.
  intros uuid st st' He (elems0 & Hst0 & Hall).
  destruct He as [| elems payload item Hst Hv Hnew
                  | elems id idx item payload item' Hst Hidx Hnth Hv Hp
                  | elems id idx Hst Hidx].
  - now left.
  - right; left. rewrite stored_ids_saved. unfold stored_ids. rewrite Hst.
    rewrite map_app. simpl.
    destruct (newItem_shaped uuid _ Hv) as (item0 & Hnew0 & _ & Hid).
    rewrite Hnew in Hnew0. injection Hnew0 as ->. now rewrite Hid.
  - left. rewrite stored_ids_saved. unfold stored_ids. rewrite Hst.
    rewrite Hst in Hst0. injection Hst0 as ->.
    eapply ids_update; [exact Hnth|].
    eapply patch_shaped; [exact Hv | | exact Hp].
    rewrite Forall_forall in Hall. apply Hall. eapply nth_error_In; exact Hnth.
  - right; right. rewrite stored_ids_saved. unfold stored_ids. rewrite Hst.
    destruct (findIndex_some _ _ _ Hidx) as (item & Hnth & _).
    destruct (nth_error_split _ _ Hnth) as (b & a & -> & <-).
    exists (map item_id b), (item_id item), (map item_id a).
    rewrite splice_one_middle, !map_app. simpl. auto.
Qed.

(** C10.  The item a POST creates has exactly the fields id, name, price
    and size, whatever else its payload holds, and its id is the generated
    one.  If every stored item has exactly these four fields, then after
    any request every stored item still has exactly these four fields; a
    PUT leaves the list of ids as it was; and any request leaves that
    list as it was, adds the generated id at its end, or drops one id. *)
Theorem C10_items_keep_their_shape_and_id : forall req uuid st,
  well_kept st ->
  well_kept (snd (handleApi req uuid st))
  /\ (forall payload,
        validateItemPayload payload false = Ok [] ->
        exists item,
          newItem uuid payload = Ok item
          /\ item_shaped item /\ item_id item = Some uuid)
  /\ (method req = "PUT" ->
      stored_ids (snd (handleApi req uuid st)) = stored_ids st)
  /\ (stored_ids (snd (handleApi req uuid st)) = stored_ids st
      \/ stored_ids (snd (handleApi req uuid st)) = stored_ids st ++ [Some uuid]
      \/ exists b x a,
           stored_ids st = b ++ x :: a
           /\ stored_ids (snd (handleApi req uuid st)) = b ++ a).
Proof.
  intros req uuid st Hkept.
  split; [|split; [|split]].
  - eapply effect_well_kept; [apply handleApi_effect | exact Hkept].
  - intros payload Hv. now apply newItem_shaped.
  - intros Hm.
    destruct (handleApi_put_effect req uuid st Hm)
      as [->|(elems & id & idx & item & payload & item' &
              Hst & Hidx & Hnth & Hv & Hp & ->)]; [reflexivity|].
    rewrite stored_ids_saved. unfold stored_ids. rewrite Hst.
    destruct Hkept as (elems0 & Hst0 & Hall).
    rewrite Hst in Hst0. injection Hst0 as ->.
    eapply ids_update; [exact Hnth|].
    eapply patch_shaped; [exact Hv | | exact Hp].
    rewrite Forall_forall in Hall. apply Hall. eapply nth_error_In; exact Hnth.
  - eapply effect_ids; [apply handleApi_effect | exact Hkept].
Qed.

Lemma C10_extra_keys_witness :
  well_kept
    (snd (handleApi
            {| method := "POST"; pathname := "/api/items";
               body := Encodes (JObj [("name", JStr "Tea");
                                      ("price", JNum (S754_finite false 5 0));
                                      ("size", JStr "Large");
                                      ("colour", JStr "green");
                                      ("id", JStr "mine")]) |}
            "7c0e9a3e-5a4b-4c58-9d53-1f2f6f0c8a11" fresh_store)).
Proof.
  apply (C10_items_keep_their_shape_and_id
           {| method := "POST"; pathname := "/api/items";
              body := Encodes (JObj [("name", JStr "Tea");
                                     ("price", JNum (S754_finite false 5 0));
                                     ("size", JStr "Large");
                                     ("colour", JStr "green");
                                     ("id", JStr "mine")]) |}
           "7c0e9a3e-5a4b-4c58-9d53-1f2f6f0c8a11" fresh_store).
  exists []. split; [reflexivity | constructor].
Defined.

Example extra_keys_are_dropped :
  stored
    (snd (handleApi
            {| method := "POST"; pathname := "/api/items";
               body := Encodes (JObj [("name", JStr "Tea");
                                      ("price", JNum (S754_finite false 5 0));
                                      ("size", JStr "Large");
                                      ("colour", JStr "green");
                                      ("id", JStr "mine")]) |}
            "7c0e9a3e-5a4b-4c58-9d53-1f2f6f0c8a11" fresh_store))
  = Ok (JArr [JObj [("id", JStr "7c0e9a3e-5a4b-4c58-9d53-1f2f6f0c8a11");
                    ("name", JStr "Tea");
                    ("price", JNum (S754_finite false 5 0));
                    ("size", JStr "l")]]).
Proof. reflexivity. Qed.

(** ** Static pages *)

Lemma not_found_page_inside : forall dirname,
  inside (PUBLIC_DIR dirname) (Path.join [PUBLIC_DIR dirname; "404.html"]) = true.
Proof.
  intros dirname.
  destruct (public_dir_normal dirname) as (absolute & below & Hroot).
  assert (Hdots : dotless (Str.split_slash "404.html"))
    by (repeat constructor; discriminate).
  destruct (join_under _ _ _ "404.html" Hroot Hdots eq_refl) as [_ Hjoin].
  unfold inside. rewrite Hjoin.
  set (root := PUBLIC_DIR dirname).
  change (root ++ String "/" (Str.join_slash (filter proper (Str.split_slash "404.html"))))%string
    with (root ++ ("/" ++ "404.html"))%string.
  rewrite <- string_app_assoc, string_prefix_app. simpl andb.
  replace (String.length root + 1) with (String.length (root ++ "/"))
    by (rewrite string_length_app; reflexivity).
  now rewrite string_drop_app.
Qed.

(** C6.  For every request path that ends in [.html], the file path
    [serveStaticHtml] resolves (the path normalised, its leading [../]
    and [..\] stripped, joined to the public directory) is the public
    directory, a slash, and a non-empty chain of segments none of which
    is empty, [.] or [..]: it names a file under the public directory,
    whatever [../] the request path holds.  Accordingly the response of
    [serveStaticHtml] is the same on two disks that agree on the files
    under the public directory. *)
Theorem C6_static_paths_stay_inside : forall dirname target,
  Str.endsWith (requested_path target) ".html" = true ->
  inside (PUBLIC_DIR dirname) (filePath dirname (requested_path target)) = true
  /\ forall readFile readFile' m b,
       (forall p, inside (PUBLIC_DIR dirname) p = true -> readFile p = readFile' p) ->
       serveStaticHtml dirname readFile
         {| method := m; pathname := target; body := b |}
       = serveStaticHtml dirname readFile'
           {| method := m; pathname := target; body := b |}.
Proof.
  intros dirname target Hend.
  assert (Hin : inside (PUBLIC_DIR dirname)
                  (filePath dirname (requested_path target)) = true).
  { destruct (safePath_dotless _ Hend) as [Hdots Hsafe].
    destruct (public_dir_normal dirname) as (absolute & below & Hroot).
    destruct (join_under _ _ _ _ Hroot Hdots Hsafe) as [Hkept Hjoin].
    unfold filePath, inside. rewrite Hjoin.
    set (root := PUBLIC_DIR dirname).
    set (kept := filter proper (Str.split_slash (safePath (requested_path target)))) in *.
    change (root ++ String "/" (Str.join_slash kept))%string
      with (root ++ ("/" ++ Str.join_slash kept))%string.
    rewrite <- string_app_assoc, string_prefix_app. simpl andb.
    replace (String.length root + 1) with (String.length (root ++ "/"))
      by (rewrite string_length_app; reflexivity).
    rewrite string_drop_app.
    rewrite split_join.
    - apply forallb_filter_proper.
    - exact Hkept.
    - apply filter_proper_slashless, split_slash_slashless. }
  split; [exact Hin|].
  intros readFile readFile' m b Hagree.
  unfold serveStaticHtml. cbn [pathname]. rewrite Hend. cbn [negb].
  rewrite <- (Hagree _ Hin), <- (Hagree _ (not_found_page_inside dirname)).
  reflexivity.
Qed.

Lemma C6_static_paths_witness :
  inside (PUBLIC_DIR "/srv/app")
    (filePath "/srv/app" (requested_path "/../../etc/passwd.html")) = true.
Proof.
  apply (C6_static_paths_stay_inside "/srv/app" "/../../etc/passwd.html").
  reflexivity.
Defined.

Example traversal_is_served_from_public :
  filePath "/srv/app" (requested_path "/../../etc/passwd.html")
  = "/srv/app/public/etc/passwd.html"
  /\ filePath "/srv/app" (requested_path "../..\../secret.html")
     = "/srv/app/public/secret.html"
  /\ filePath "/srv/app" (requested_path "/") = "/srv/app/public/index.html".
Proof. repeat split; reflexivity. Qed.

(** * Further properties of the code *)

(** ** Routing *)

Lemma dispatch_same_request : forall req req' id uuid,
  method req = method req' -> body req = body req' ->
  dispatch req id uuid = dispatch req' id uuid.
Proof. intros req req' id uuid Hm Hb. unfold dispatch. now rewrite Hm, Hb. Qed.

Lemma handleApi_same_segments : forall req req' uuid st,
  method req = method req' -> body req = body req' ->
  segments_of (pathname req) = segments_of (pathname req') ->
  handleApi req uuid st = handleApi req' uuid st.
Proof.
  intros req req' uuid st Hm Hb Hs. unfold handleApi. rewrite Hs.
  destruct (segments_of (pathname req')) as [|first rest]; [reflexivity|].
  destruct (negb (String.eqb first "api")); [reflexivity|].
  destruct (negb (segment_is (nth_error (first :: rest) 1) "items")); [reflexivity|].
  cbv zeta. now rewrite (dispatch_same_request req req' _ _ Hm Hb).
Qed.

Lemma segments_trailing_slash : forall p, segments_of (p ++ "/") = segments_of p.
Proof.
  intros p. unfold segments_of.
  change (p ++ "/")%string with (p ++ String "/" EmptyString)%string.
  rewrite split_slash_app, filter_app. simpl. apply app_nil_r.
Qed.

Lemma segments_leading_slash : forall p, segments_of ("/" ++ p) = segments_of p.
Proof. reflexivity. Qed.

(** X1.  The API looks at the non-empty segments of the path only: a
    trailing or a leading slash changes nothing, and under
    [/api/items/{id}] whatever follows the id is ignored. *)
Theorem handleApi_reads_segments_only : forall m b uuid st p,
  handleApi {| method := m; pathname := p ++ "/"; body := b |} uuid st
  = handleApi {| method := m; pathname := p; body := b |} uuid st
  /\ handleApi {| method := m; pathname := "/" ++ p; body := b |} uuid st
     = handleApi {| method := m; pathname := p; body := b |} uuid st
  /\ (forall p' id more more',
        segments_of p = "api" :: "items" :: id :: more ->
        segments_of p' = "api" :: "items" :: id :: more' ->
        handleApi {| method := m; pathname := p'; body := b |} uuid st
        = handleApi {| method := m; pathname := p; body := b |} uuid st).
Proof.
  intros m b uuid st p. split; [|split].
  - apply handleApi_same_segments; try reflexivity. apply segments_trailing_slash.
  - apply handleApi_same_segments; reflexivity.
  - intros p' id more more' Hp Hp'.
    rewrite (handleApi_items {| method := m; pathname := p'; body := b |} _ _ _ Hp').
    rewrite (handleApi_items {| method := m; pathname := p; body := b |} _ _ _ Hp).
    simpl.
    now rewrite (dispatch_same_request
                   {| method := m; pathname := p'; body := b |}
                   {| method := m; pathname := p; body := b |}).
Qed.

(** X2.  [handleApi] declines a request (returns false, store untouched)
    exactly when the first non-empty segment of the path is not [api];
    under [/api] but not [/api/items] it answers 404 "Not found" for every
    method and body, without touching the store. *)
Theorem handleApi_declines_outside_api : forall req uuid st,
  (fst (handleApi req uuid st) = Ok None
   <-> hd_error (segments_of (pathname req)) <> Some "api")
  /\ (hd_error (segments_of (pathname req)) <> Some "api" ->
      handleApi req uuid st = (Ok None, st))
  /\ (hd_error (segments_of (pathname req)) = Some "api" ->
      nth_error (segments_of (pathname req)) 1 <> Some "items" ->
      handleApi req uuid st = (Ok (Some (respond 404 (failure "Not found"))), st)).
Proof.
  intros req uuid st. unfold handleApi.
  destruct (segments_of (pathname req)) as [|first rest]; simpl hd_error.
  - repeat split; try reflexivity; discriminate.
  - destruct (String.eqb_spec first "api") as [->|Hne]; cbn [negb].
    + assert (Hsome : forall c : M (option response),
                (forall s, exists r s', c s = (Ok (Some r), s')) ->
                fst (c st) = Ok None -> False).
      { intros c Hc H. destruct (Hc st) as (r & s' & E). rewrite E in H. discriminate. }
      split; [|split].
      * split; [|intros H; now elim H].
        intros H. exfalso. revert H. apply Hsome. intros s.
        destruct (negb (segment_is (nth_error ("api" :: rest) 1) "items"));
          [eexists; eexists; reflexivity|].
        cbv zeta. unfold try_catch, bind, ret.
        destruct (dispatch req (nth_error ("api" :: rest) 2) uuid s) as [[r|e] s'];
          eexists; eexists; reflexivity.
      * intros H. now elim H.
      * intros _ Hitems.
        assert (Hno : segment_is (nth_error ("api" :: rest) 1) "items" = false).
        { destruct (nth_error ("api" :: rest) 1) as [s|]; [|reflexivity].
          simpl. apply String.eqb_neq. intros ->. now apply Hitems. }
        now rewrite Hno.
    + split; [|split].
      * split; [intros _ E; injection E as ->; now apply Hne | reflexivity].
      * reflexivity.
      * intros E. injection E as ->. now elim Hne.
Qed.

(** ** Reading *)

(** X3.  GET [/api/items] answers 200 with whatever [readItems] returns
    and never writes; with no data file, or an empty one, the data is the
    empty list; with a data file that [JSON.parse] rejects the answer is
    500. *)
Theorem list_returns_the_collection : forall req uuid st,
  method req = "GET" ->
  segments_of (pathname req) = ["api"; "items"] ->
  (forall v, stored st = Ok v ->
     handleApi req uuid st = (Ok (Some (respond 200 (success v))), st))
  /\ (items_json st = None \/ items_json st = Some Empty ->
      handleApi req uuid st = (Ok (Some (respond 200 (success (JArr [])))), st))
  /\ (forall e, stored st = Throw e ->
        handleApi req uuid st = (Ok (Some internal_error), st)).
Proof.
  intros req uuid st Hm Hseg.
  rewrite (handleApi_items _ _ _ _ Hseg). simpl.
  rewrite (dispatch_get_all _ _ Hm). unfold list_items. run.
  split; [|split].
  - intros v ->. reflexivity.
  - unfold stored, readItems. intros [-> | ->]; reflexivity.
  - intros e ->. reflexivity.
Qed.

Lemma list_returns_the_collection_witness :
  handleApi {| method := "GET"; pathname := "/api/items"; body := Empty |}
    "7c0e9a3e-5a4b-4c58-9d53-1f2f6f0c8a11" fresh_store
  = (Ok (Some (respond 200 (success (JArr [])))), fresh_store).
Proof.
  apply (list_returns_the_collection
           {| method := "GET"; pathname := "/api/items"; body := Empty |}
           "7c0e9a3e-5a4b-4c58-9d53-1f2f6f0c8a11" fresh_store eq_refl eq_refl).
  now left.
Defined.

(** X4.  GET and DELETE [/api/items/{id}] for an id that no stored
    element has are answered 404 "Item not found" and leave the store as
    it was. *)
Theorem unknown_id_is_404 : forall req uuid st id more elems,
  method req = "GET" \/ method req = "DELETE" ->
  segments_of (pathname req) = "api" :: "items" :: id :: more ->
  stored st = Ok (JArr elems) ->
  Forall (fun i => id_is id i = Ok false) elems ->
  handleApi req uuid st
  = (Ok (Some (respond 404 (failure "Item not found"))), st).
Proof.
  intros req uuid st id more elems Hm Hseg Hst Hall.
  rewrite (handleApi_items _ _ _ _ Hseg). simpl.
  destruct Hm as [Hm|Hm].
  - rewrite (dispatch_get_one _ _ _ Hm).
    now rewrite (get_item_unknown _ _ _ Hst Hall).
  - rewrite (dispatch_delete _ _ _ Hm). unfold delete_item. run.
    rewrite Hst. simpl. now rewrite (findIndex_none _ _ Hall).
Qed.

Lemma unknown_id_is_404_witness :
  handleApi {| method := "DELETE"; pathname := "/api/items/ghost"; body := Empty |}
    "7c0e9a3e-5a4b-4c58-9d53-1f2f6f0c8a11" fresh_store
  = (Ok (Some (respond 404 (failure "Item not found"))), fresh_store).
Proof.
  apply (unknown_id_is_404
           {| method := "DELETE"; pathname := "/api/items/ghost"; body := Empty |}
           "7c0e9a3e-5a4b-4c58-9d53-1f2f6f0c8a11" fresh_store "ghost" [] []).
  - now right.
  - reflexivity.
  - reflexivity.
  - constructor.
Defined.

(** ** Methods *)

(** X5.  Under [/api/items] a method other than GET, POST, PUT and
    DELETE, a POST on an item path, and a PUT or DELETE on the collection
    path are answered 405 "Method not allowed"; neither the body nor the
    data file is read, so this holds whatever they hold. *)
Theorem other_methods_are_405 : forall req uuid st rest,
  segments_of (pathname req) = "api" :: "items" :: rest ->
  (method req <> "GET" /\ method req <> "POST"
   /\ method req <> "PUT" /\ method req <> "DELETE")
  \/ (method req = "POST" /\ rest <> [])
  \/ ((method req = "PUT" \/ method req = "DELETE") /\ rest = []) ->
  handleApi req uuid st
  = (Ok (Some (respond 405 (failure "Method not allowed"))), st).
Proof.
  intros req uuid st rest Hseg Hcase.
  rewrite (handleApi_items _ _ _ _ Hseg).
  assert (Hd : dispatch req (nth_error rest 0) uuid
               = ret (respond 405 (failure "Method not allowed"))).
  { unfold dispatch.
    destruct Hcase as [(Hg & Hpo & Hpu & Hde)|[[Hm Hrest]|[Hm ->]]].
    - apply String.eqb_neq in Hg, Hpo, Hpu, Hde.
      now rewrite Hg, Hpo, Hpu, Hde.
    - rewrite Hm. destruct rest; [now elim Hrest | reflexivity].
    - destruct Hm as [-> | ->]; reflexivity. }
  now rewrite Hd.
Qed.

Lemma other_methods_are_405_witness :
  handleApi {| method := "PATCH"; pathname := "/api/items/a1"; body := Malformed |}
    "7c0e9a3e-5a4b-4c58-9d53-1f2f6f0c8a11"
    {| items_json := Some Malformed; items_json_tmp := None |}
  = (Ok (Some (respond 405 (failure "Method not allowed"))),
     {| items_json := Some Malformed; items_json_tmp := None |}).
Proof.
  apply (other_methods_are_405
           {| method := "PATCH"; pathname := "/api/items/a1"; body := Malformed |}
           "7c0e9a3e-5a4b-4c58-9d53-1f2f6f0c8a11"
           {| items_json := Some Malformed; items_json_tmp := None |} ["a1"]).
  - reflexivity.
  - left. repeat split; discriminate.
Defined.

(** ** Bodies *)

(** X6.  A body that parses to a falsy value ([null], [false], [0], the
    empty string) is treated as a missing body: POST [/api/items] and PUT
    [/api/items/{id}] answer 400 "Missing JSON body" before validation and
    before the data file is read. *)
Theorem falsy_body_is_missing_body : forall req uuid st rest v,
  segments_of (pathname req) = "api" :: "items" :: rest ->
  (method req = "POST" /\ rest = []) \/ (method req = "PUT" /\ rest <> []) ->
  body req = Encodes v ->
  falsy v = true ->
  handleApi req uuid st
  = (Ok (Some (respond 400 (failure "Missing JSON body"))), st).
Proof.
  intros req uuid st rest v Hseg Hcase Hb Hf.
  rewrite (handleApi_items _ _ _ _ Hseg).
  destruct Hcase as [[Hm ->]|[Hm Hrest]].
  - simpl. rewrite (dispatch_post _ _ Hm), Hb.
    unfold create_item. run. now rewrite Hf.
  - destruct rest as [|id more]; [now elim Hrest|]. simpl.
    rewrite (dispatch_put _ _ _ Hm), Hb.
    unfold update_item. run. now rewrite Hf.
Qed.

Lemma falsy_body_is_missing_body_witness :
  handleApi {| method := "POST"; pathname := "/api/items";
               body := Encodes (JNum (S754_zero false)) |}
    "7c0e9a3e-5a4b-4c58-9d53-1f2f6f0c8a11" fresh_store
  = (Ok (Some (respond 400 (failure "Missing JSON body"))), fresh_store).
Proof.
  apply (falsy_body_is_missing_body
           {| method := "POST"; pathname := "/api/items";
              body := Encodes (JNum (S754_zero false)) |}
           "7c0e9a3e-5a4b-4c58-9d53-1f2f6f0c8a11" fresh_store []
           (JNum (S754_zero false))).
  - reflexivity.
  - left. split; reflexivity.
  - reflexivity.
  - reflexivity.
Defined.

(** X7.  A body that parses to a truthy value that is not an object (a
    number, a string, [true], an array) makes POST answer 422 with all
    three messages.  A PUT with a truthy number, string or [true] is
    answered 500: the test [k in payload] throws on a primitive. *)
Theorem body_that_is_not_an_object : forall req uuid st rest v,
  segments_of (pathname req) = "api" :: "items" :: rest ->
  body req = Encodes v ->
  falsy v = false ->
  is_object v = false ->
  (method req = "POST" -> rest = [] ->
     handleApi req uuid st
     = (Ok (Some (respond 422
                    (failures [name_message; price_message; size_message]))), st))
  /\ (method req = "PUT" -> rest <> [] ->
      (forall elems, v <> JArr elems) ->
      handleApi req uuid st = (Ok (Some internal_error), st)).
Proof.
  intros req uuid st rest v Hseg Hb Hf Ho.
  rewrite (handleApi_items _ _ _ _ Hseg). split.
  - intros Hm ->. simpl. rewrite (dispatch_post _ _ Hm), Hb.
    unfold create_item. run. rewrite Hf.
    destruct v as [| | | | |]; try discriminate; reflexivity.
  - intros Hm Hrest Harr.
    destruct rest as [|id more]; [now elim Hrest|]. simpl.
    rewrite (dispatch_put _ _ _ Hm), Hb.
    unfold update_item. run. rewrite Hf.
    destruct v as [| | | |elems|]; try discriminate; try reflexivity.
    now elim (Harr elems).
Qed.

Lemma body_that_is_not_an_object_witness :
  handleApi {| method := "PUT"; pathname := "/api/items/a1";
               body := Encodes (JNum (S754_finite false 5 0)) |}
    "7c0e9a3e-5a4b-4c58-9d53-1f2f6f0c8a11" fresh_store
  = (Ok (Some internal_error), fresh_store).
Proof.
  apply (body_that_is_not_an_object
           {| method := "PUT"; pathname := "/api/items/a1";
              body := Encodes (JNum (S754_finite false 5 0)) |}
           "7c0e9a3e-5a4b-4c58-9d53-1f2f6f0c8a11" fresh_store ["a1"]
           (JNum (S754_finite false 5 0)));
    try reflexivity; discriminate.
Defined.

(** ** Validation *)

Lemma full_validation_errors : forall fields,
  validateItemPayload (JObj fields) false = Ok (failing_fields fields).
Proof.
  intros fields. unfold validateItemPayload, validate_field, checked, failing_fields.
  simpl.
  destruct (bad_name (lookup "name" fields));
    destruct (bad_price (lookup "price" fields));
    destruct (bad_size (lookup "size" fields)); reflexivity.
Qed.

Lemma partial_validation_errors : forall fields,
  validateItemPayload (JObj fields) true = Ok (failing_present_fields fields).
Proof.
  intros fields.
  unfold validateItemPayload, validate_field, checked, has_key, prop, obind,
         failing_present_fields, absent_or.
  destruct (lookup "name" fields) as [n|];
    [destruct (bad_name (Some n))|];
    (destruct (lookup "price" fields) as [p|];
     [destruct (bad_price (Some p))|]);
    (destruct (lookup "size" fields) as [z|];
     [destruct (bad_size (Some z))|]); reflexivity.
Qed.

(** X8.  A POST [/api/items] whose body is an object with a failing field
    is answered 422 with the messages of exactly the failing fields, in
    the order name, price, size; the data file is neither read nor
    written.  A missing or blank name gives the name message, a missing,
    negative or non-finite price the price message. *)
Theorem invalid_post_is_422 : forall req uuid st fields,
  method req = "POST" ->
  segments_of (pathname req) = ["api"; "items"] ->
  body req = Encodes (JObj fields) ->
  failing_fields fields <> [] ->
  handleApi req uuid st
  = (Ok (Some (respond 422 (failures (failing_fields fields)))), st)
  /\ (In name_message (failing_fields fields)
      <-> bad_name (lookup "name" fields) = true)
  /\ (In price_message (failing_fields fields)
      <-> bad_price (lookup "price" fields) = true)
  /\ (In size_message (failing_fields fields)
      <-> bad_size (lookup "size" fields) = true)
  /\ (lookup "name" fields = None -> In name_message (failing_fields fields))
  /\ (forall x, lookup "price" fields = Some (JNum x) -> lt_zero x = true ->
        In price_message (failing_fields fields)).
Proof.
  intros req uuid st fields Hm Hseg Hb Hbad.
  split.
  - rewrite (handleApi_items _ _ _ _ Hseg). simpl.
    rewrite (dispatch_post _ _ Hm), Hb.
    unfold create_item, bind, lift, ret.
    cbn [parseJsonBody is_empty JSON_parse falsy].
    rewrite full_validation_errors.
    destruct (failing_fields fields); [now elim Hbad | reflexivity].
  - unfold failing_fields.
    repeat split;
      try (intros H;
           destruct (bad_name (lookup "name" fields));
           destruct (bad_price (lookup "price" fields));
           destruct (bad_size (lookup "size" fields));
           simpl in *; try reflexivity; try discriminate; intuition discriminate).
    + intros ->. simpl. now left.
    + intros x -> Hx. simpl. rewrite Hx, orb_true_r.
      apply in_or_app. right. now left.
Qed.

Lemma invalid_post_is_422_witness :
  handleApi {| method := "POST"; pathname := "/api/items";
               body := Encodes (JObj [("name", JStr "Tea");
                                      ("price", JNum (S754_finite true 1 0));
                                      ("size", JStr "m")]) |}
    "7c0e9a3e-5a4b-4c58-9d53-1f2f6f0c8a11" fresh_store
  = (Ok (Some (respond 422 (failures [price_message]))), fresh_store).
Proof.
  apply (invalid_post_is_422
           {| method := "POST"; pathname := "/api/items";
              body := Encodes (JObj [("name", JStr "Tea");
                                     ("price", JNum (S754_finite true 1 0));
                                     ("size", JStr "m")]) |}
           "7c0e9a3e-5a4b-4c58-9d53-1f2f6f0c8a11" fresh_store
           [("name", JStr "Tea"); ("price", JNum (S754_finite true 1 0));
            ("size", JStr "m")]);
    try reflexivity.
  discriminate.
Defined.

(** X21.  A PUT [/api/items/{id}] whose body is an object with a field
    that is present and fails its rule is answered 422 with the messages
    of exactly those fields, in the order name, price, size, before the
    data file is read: the answer is the same whether or not the id is
    stored. *)
Theorem invalid_put_is_422 : forall req uuid st id more fields,
  method req = "PUT" ->
  segments_of (pathname req) = "api" :: "items" :: id :: more ->
  body req = Encodes (JObj fields) ->
  failing_present_fields fields <> [] ->
  handleApi req uuid st
  = (Ok (Some (respond 422 (failures (failing_present_fields fields)))), st)
  /\ (forall x, lookup "price" fields = Some (JNum x) -> lt_zero x = true ->
        In price_message (failing_present_fields fields))
  /\ (forall s, lookup "size" fields = Some (JStr s) ->
        Str.includes allowedSizes (Str.toLowerCase s) = false ->
        In size_message (failing_present_fields fields)).
Proof.
  intros req uuid st id more fields Hm Hseg Hb Hbad. split; [|split].
  - rewrite (handleApi_items _ _ _ _ Hseg). simpl.
    rewrite (dispatch_put _ _ _ Hm), Hb.
    unfold update_item, bind, lift, ret.
    cbn [parseJsonBody is_empty JSON_parse falsy].
    rewrite partial_validation_errors.
    destruct (failing_present_fields fields); [now elim Hbad | reflexivity].
  - intros x Hx Hneg. unfold failing_present_fields. rewrite Hx. simpl.
    rewrite Hneg, orb_true_r. simpl.
    apply in_or_app. right. now left.
  - intros s Hs Hno. unfold failing_present_fields. rewrite Hs.
    unfold absent_or, bad_size. rewrite Hno. simpl.
    apply in_or_app. right. apply in_or_app. right. now left.
Qed.

Lemma invalid_put_is_422_witness :
  handleApi {| method := "PUT"; pathname := "/api/items/ghost";
               body := Encodes (JObj [("size", JStr "huge")]) |}
    "7c0e9a3e-5a4b-4c58-9d53-1f2f6f0c8a11" fresh_store
  = (Ok (Some (respond 422 (failures [size_message]))), fresh_store).
Proof.
  apply (invalid_put_is_422
           {| method := "PUT"; pathname := "/api/items/ghost";
              body := Encodes (JObj [("size", JStr "huge")]) |}
           "7c0e9a3e-5a4b-4c58-9d53-1f2f6f0c8a11" fresh_store "ghost" []
           [("size", JStr "huge")]);
    try reflexivity.
  discriminate.
Defined.

Lemma absent_or_weaker : forall bad v, bad v = false -> absent_or bad v = true.
Proof. intros bad [x|] H; simpl; [now rewrite H | reflexivity]. Qed.

(** X9.  Partial validation is never stricter than full validation: on an
    object, every message partial validation reports is reported by full
    validation too, so a payload that POST accepts is accepted by PUT. *)
Theorem partial_validation_is_weaker : forall fields,
  incl (failing_present_fields fields) (failing_fields fields)
  /\ validateItemPayload (JObj fields) true = Ok (failing_present_fields fields)
  /\ validateItemPayload (JObj fields) false = Ok (failing_fields fields)
  /\ (forall payload,
        validateItemPayload payload false = Ok [] ->
        validateItemPayload payload true = Ok []).
Proof.
  intros fields. split; [|split; [|split]].
  - unfold failing_present_fields, failing_fields, absent_or.
    destruct (lookup "name" fields) as [n|];
      destruct (lookup "price" fields) as [p|];
      destruct (lookup "size" fields) as [z|];
      repeat match goal with
             | |- context [bad_name ?v] => destruct (bad_name v)
             | |- context [bad_price ?v] => destruct (bad_price v)
             | |- context [bad_size ?v] => destruct (bad_size v)
             end;
      simpl; intros m Hin; simpl in *; tauto.
  - apply partial_validation_errors.
  - apply full_validation_errors.
  - intros payload Hv.
    apply full_validation_inv in Hv as (f & -> & Hn & Hp & Hs).
    apply partial_validation_object.
    repeat split; now apply absent_or_weaker.
Qed.







(** A name made of a no-break space and a space is blank. *)
Example no_break_space_is_blank :
  bad_name (Some (JStr (String (ascii_of_nat 160) " "))) = true
  /\ bad_name (Some (JStr (String (ascii_of_nat 160) "x "))) = false.
Proof. split; reflexivity. Qed.

(** ** Answers *)

Ltac break_inner :=
  match goal with
  | |- context [match ?x with _ => _ end] =>
      lazymatch x with
      | context [match _ with _ => _ end] => fail
      | _ => destruct x eqn:?
      end
  end.

Ltac answer_through :=
  unfold bind, lift, ret; cbv beta;
  repeat (first [rewrite readItems_run | rewrite writeItems_run | break_inner];
          cbn [fst snd status content_type respond missing_body item_not_found];
          try exact I;
          try (split; [simpl; tauto | reflexivity])).

Lemma list_items_answers : answers list_items.
Proof. intros st. unfold list_items. answer_through. Qed.

Lemma get_item_answers : forall id, answers (get_item id).
Proof. intros id st. unfold get_item. answer_through. Qed.

Lemma create_item_answers : forall body uuid, answers (create_item body uuid).
Proof. intros body uuid st. unfold create_item. answer_through. Qed.

Lemma update_item_answers : forall id body, answers (update_item id body).
Proof. intros id body st. unfold update_item. answer_through. Qed.

Lemma delete_item_answers : forall id, answers (delete_item id).
Proof. intros id st. unfold delete_item. answer_through. Qed.

Lemma dispatch_answers : forall req id uuid, answers (dispatch req id uuid).
Proof.
  intros req id uuid. unfold dispatch.
  repeat break_match;
    auto using list_items_answers, get_item_answers, create_item_answers,
               update_item_answers, delete_item_answers.
  intros st. simpl. tauto.
Qed.

(** X11.  [handleApi] never throws: every exception raised while a
    request under [/api/items] is handled becomes a response.  Whenever it
    answers, the status is one of 200, 201, 400, 404, 405, 422 and 500 and
    the content type is [application/json]. *)
Theorem handleApi_always_answers : forall req uuid st,
  exists answer st',
    handleApi req uuid st = (Ok answer, st')
    /\ (hd_error (segments_of (pathname req)) = Some "api" -> answer <> None)
    /\ (forall r, answer = Some r ->
          In (status r) api_statuses /\ content_type r = "application/json").
Proof.
  intros req uuid st. unfold handleApi.
  destruct (segments_of (pathname req)) as [|first rest]; simpl hd_error.
  - exists None, st. repeat split; discriminate.
  - destruct (String.eqb_spec first "api") as [->|Hne]; cbn [negb].
    + destruct (negb (segment_is (nth_error ("api" :: rest) 1) "items")).
      * eexists; eexists. split; [reflexivity|].
        split; [discriminate|]. intros r E. injection E as <-. simpl. tauto.
      * cbv zeta. unfold try_catch, bind, ret.
        pose proof (dispatch_answers req (nth_error ("api" :: rest) 2) uuid st) as Ha.
        destruct (dispatch req (nth_error ("api" :: rest) 2) uuid st) as [[r|e] st'].
        -- eexists; eexists. split; [reflexivity|].
           split; [discriminate|]. intros r' E. injection E as <-. exact Ha.
        -- eexists; eexists. split; [reflexivity|].
           split; [discriminate|]. intros r' E. injection E as <-. simpl. tauto.
    + exists None, st. repeat split; try discriminate.
      intros E. injection E as ->. now elim Hne.
Qed.

(** ** Writes *)

Ltac write_through :=
  unfold bind, lift, ret; cbv beta;
  repeat (first [rewrite readItems_run | rewrite writeItems_run | break_inner];
          cbn [fst snd]; try (left; reflexivity));
  try (right; eexists; split; [reflexivity | simpl; tauto]).

Lemma list_items_writes : writes_on_success list_items.
Proof. intros st. unfold list_items. write_through. Qed.

Lemma get_item_writes : forall id, writes_on_success (get_item id).
Proof. intros id st. unfold get_item. write_through. Qed.

Lemma create_item_writes : forall body uuid, writes_on_success (create_item body uuid).
Proof. intros body uuid st. unfold create_item. write_through. Qed.

Lemma update_item_writes : forall id body, writes_on_success (update_item id body).
Proof. intros id body st. unfold update_item. write_through. Qed.

Lemma delete_item_writes : forall id, writes_on_success (delete_item id).
Proof. intros id st. unfold delete_item. write_through. Qed.

Lemma dispatch_writes : forall req id uuid, writes_on_success (dispatch req id uuid).
Proof.
  intros req id uuid. unfold dispatch.
  repeat break_match;
    auto using list_items_writes, get_item_writes, create_item_writes,
               update_item_writes, delete_item_writes.
  intros st. now left.
Qed.

Lemma dispatch_get_reads : forall req id uuid st,
  method req = "GET" -> snd (dispatch req id uuid st) = st.
Proof.
  intros req id uuid st Hm. unfold dispatch. rewrite Hm.
  destruct id; simpl.
  - unfold get_item. unfold bind, lift, ret; cbv beta. rewrite readItems_run.
    repeat (break_inner; cbn [fst snd]; try reflexivity).
  - unfold list_items, bind, ret. rewrite readItems_run.
    destruct (stored st); reflexivity.
Qed.

(** X12.  The data file changes only when a request succeeds: whatever
    the request, either the store is left as it was or the answer is 200
    or 201.  A GET never changes the store. *)
Theorem store_changes_only_on_success : forall req uuid st,
  (snd (handleApi req uuid st) = st
   \/ exists r, fst (handleApi req uuid st) = Ok (Some r)
                /\ (status r = 200 \/ status r = 201))
  /\ (method req = "GET" -> snd (handleApi req uuid st) = st).
Proof.
  intros req uuid st. unfold handleApi.
  destruct (segments_of (pathname req)) as [|first rest]; [split; auto|].
  destruct (negb (String.eqb first "api")); [split; auto|].
  destruct (negb (segment_is (nth_error (first :: rest) 1) "items")); [split; auto|].
  cbv zeta. split.
  - unfold try_catch, bind, ret.
    destruct (dispatch_writes req (nth_error (first :: rest) 2) uuid st)
      as [H|(r & Hr & Hs)].
    + left. destruct (dispatch req (nth_error (first :: rest) 2) uuid st)
        as [[r|e] st']; exact H.
    + right. exists r.
      destruct (dispatch req (nth_error (first :: rest) 2) uuid st)
        as [[r'|e] st']; simpl in Hr; [|discriminate].
      injection Hr as ->. split; [reflexivity | exact Hs].
  - intros Hm. rewrite snd_handled. now apply dispatch_get_reads.
Qed.

(** ** A data file that is not a list *)

(** X13.  When the data file cannot be parsed, or holds JSON that is not
    an array, every operation on items is answered 500 "Internal server
    error" and the file is left as it is: GET and DELETE by id, a POST
    with a valid payload, a PUT with a payload that passes partial
    validation. *)
Theorem damaged_data_file_is_500 : forall req uuid st rest,
  (forall elems, stored st <> Ok (JArr elems)) ->
  segments_of (pathname req) = "api" :: "items" :: rest ->
  ((method req = "GET" \/ method req = "DELETE") /\ rest <> [])
  \/ (exists payload,
        method req = "POST" /\ rest = [] /\ body req = Encodes payload
        /\ validateItemPayload payload false = Ok [])
  \/ (exists payload,
        method req = "PUT" /\ rest <> [] /\ body req = Encodes payload
        /\ validateItemPayload payload true = Ok []) ->
  handleApi req uuid st = (Ok (Some internal_error), st).
Proof.
  intros req uuid st rest Hbad Hseg Hcase.
  rewrite (handleApi_items _ _ _ _ Hseg).
  assert (Hel : forall v, stored st = Ok v -> exists e, elements v = Throw e).
  { intros v Hv. destruct v; simpl; eauto. now elim (Hbad elems). }
  destruct Hcase as [[Hm Hrest]|[(payload & Hm & -> & Hb & Hv)
                               |(payload & Hm & Hrest & Hb & Hv)]].
  - destruct rest as [|id more]; [now elim Hrest|]. simpl.
    destruct Hm as [Hm|Hm].
    + rewrite (dispatch_get_one _ _ _ Hm). unfold get_item. run.
      destruct (stored st) as [v|e] eqn:Hst; [|reflexivity].
      destruct (Hel v eq_refl) as [e ->]. reflexivity.
    + rewrite (dispatch_delete _ _ _ Hm). unfold delete_item. run.
      destruct (stored st) as [v|e] eqn:Hst; [|reflexivity].
      destruct (Hel v eq_refl) as [e ->]. reflexivity.
  - simpl. rewrite (dispatch_post _ _ Hm), Hb. unfold create_item. run.
    rewrite (validated_is_truthy _ _ Hv). run. rewrite Hv. run.
    destruct (stored st) as [v|e] eqn:Hst; [|reflexivity].
    destruct (newItem_shaped uuid _ Hv) as (item & -> & _).
    destruct (Hel v eq_refl) as [e ->]. reflexivity.
  - destruct rest as [|id more]; [now elim Hrest|]. simpl.
    rewrite (dispatch_put _ _ _ Hm), Hb. unfold update_item. run.
    rewrite (validated_is_truthy _ _ Hv). run. rewrite Hv. run.
    destruct (stored st) as [v|e] eqn:Hst; [|reflexivity].
    destruct (Hel v eq_refl) as [e ->]. reflexivity.
Qed.

Lemma damaged_data_file_is_500_witness :
  handleApi {| method := "GET"; pathname := "/api/items/a1"; body := Empty |}
    "7c0e9a3e-5a4b-4c58-9d53-1f2f6f0c8a11"
    {| items_json := Some Malformed; items_json_tmp := None |}
  = (Ok (Some internal_error),
     {| items_json := Some Malformed; items_json_tmp := None |}).
Proof.
  apply (damaged_data_file_is_500
           {| method := "GET"; pathname := "/api/items/a1"; body := Empty |}
           "7c0e9a3e-5a4b-4c58-9d53-1f2f6f0c8a11"
           {| items_json := Some Malformed; items_json_tmp := None |} ["a1"]).
  - intros elems. discriminate.
  - reflexivity.
  - left. split; [now left | discriminate].
Defined.

(** ** Persistence *)

Lemma saved_serial : forall v, saved (serial v) = saved v.
Proof. intros v. unfold saved, JSON_stringify. now rewrite serial_idempotent. Qed.


(** ** Requests in sequence *)

Lemma respond_serial_list : forall code elems,
  respond code (success (JArr (map serial elems)))
  = respond code (success (JArr elems)).
Proof.
  intros code elems. unfold respond, JSON_stringify. simpl.
  rewrite map_map.
  now rewrite (map_ext _ serial serial_idempotent).
Qed.

(** X15.  The item a valid POST creates is made of the generated id, the
    name and the price of the payload as they are, and the short form of
    its size, in that order; an [id] the payload carries is not used.  A
    GET [/api/items] sent next lists the old items followed by the new
    one. *)
Theorem created_item_is_listed : forall req uuid st elems payload list_req uuid',
  method req = "POST" ->
  segments_of (pathname req) = ["api"; "items"] ->
  body req = Encodes payload ->
  validateItemPayload payload false = Ok [] ->
  stored st = Ok (JArr elems) ->
  method list_req = "GET" ->
  segments_of (pathname list_req) = ["api"; "items"] ->
  exists name price size,
    payload_field "name" payload = Some (JStr name)
    /\ payload_field "price" payload = Some (JNum price)
    /\ payload_field "size" payload = Some (JStr size)
    /\ let item := JObj [("id", JStr uuid); ("name", JStr name);
                         ("price", JNum price);
                         ("size", JStr (canonical_size (Str.toLowerCase size)))] in
       handleApi req uuid st
       = (Ok (Some (respond 201 (success item))), saved (JArr (elems ++ [item])))
       /\ handleApi list_req uuid' (saved (JArr (elems ++ [item])))
          = (Ok (Some (respond 200 (success (JArr (elems ++ [item]))))),
             saved (JArr (elems ++ [item]))).
Proof.
  intros req uuid st elems payload list_req uuid' Hm Hseg Hb Hv Hst Hm' Hseg'.
  destruct (newItem_valid uuid _ Hv) as (n & p & s & Hn & Hp & Hs & _ & Hnew).
  exists n, p, s. repeat split; try assumption.
  - rewrite (handleApi_items _ _ _ _ Hseg). simpl.
    rewrite (dispatch_post _ _ Hm), Hb.
    now rewrite (create_item_run _ _ _ _ _ Hv Hst Hnew).
  - rewrite (handleApi_items _ _ _ _ Hseg'). simpl.
    rewrite (dispatch_get_all _ _ Hm'). unfold list_items. run.
    change (serial (JArr (elems ++ [?i]))) with (JArr (map serial (elems ++ [i]))).
    now rewrite respond_serial_list.
Qed.

Lemma created_item_is_listed_witness :
  exists name price size,
    payload_field "name"
      (JObj [("name", JStr "Tea"); ("price", JNum (S754_finite false 5 0));
             ("size", JStr "Medium"); ("id", JStr "mine")]) = Some (JStr name)
    /\ payload_field "price"
         (JObj [("name", JStr "Tea"); ("price", JNum (S754_finite false 5 0));
                ("size", JStr "Medium"); ("id", JStr "mine")]) = Some (JNum price)
    /\ payload_field "size"
         (JObj [("name", JStr "Tea"); ("price", JNum (S754_finite false 5 0));
                ("size", JStr "Medium"); ("id", JStr "mine")]) = Some (JStr size)
    /\ let item := JObj [("id", JStr "7c0e9a3e-5a4b-4c58-9d53-1f2f6f0c8a11");
                         ("name", JStr name); ("price", JNum price);
                         ("size", JStr (canonical_size (Str.toLowerCase size)))] in
       handleApi {| method := "POST"; pathname := "/api/items";
                    body := Encodes (JObj [("name", JStr "Tea");
                                           ("price", JNum (S754_finite false 5 0));
                                           ("size", JStr "Medium");
                                           ("id", JStr "mine")]) |}
         "7c0e9a3e-5a4b-4c58-9d53-1f2f6f0c8a11" fresh_store
       = (Ok (Some (respond 201 (success item))), saved (JArr ([] ++ [item])))
       /\ handleApi {| method := "GET"; pathname := "/api/items"; body := Empty |}
            "0b7f0d7e-1f0a-4f3c-8f59-2f3f7a4e9c22" (saved (JArr ([] ++ [item])))
          = (Ok (Some (respond 200 (success (JArr ([] ++ [item]))))),
             saved (JArr ([] ++ [item]))).
Proof.
  apply (created_item_is_listed
           {| method := "POST"; pathname := "/api/items";
              body := Encodes (JObj [("name", JStr "Tea");
                                     ("price", JNum (S754_finite false 5 0));
                                     ("size", JStr "Medium");
                                     ("id", JStr "mine")]) |}
           "7c0e9a3e-5a4b-4c58-9d53-1f2f6f0c8a11" fresh_store []
           (JObj [("name", JStr "Tea"); ("price", JNum (S754_finite false 5 0));
                  ("size", JStr "Medium"); ("id", JStr "mine")])
           {| method := "GET"; pathname := "/api/items"; body := Empty |}
           "0b7f0d7e-1f0a-4f3c-8f59-2f3f7a4e9c22");
    reflexivity.
Defined.

Lemma serial_fields_assign : forall k v fields,
  serial_fields (assign k v fields) = assign k (serial v) (serial_fields fields).
Proof.
  intros k v. induction fields as [|[k' x] rest IH]; simpl; [reflexivity|].
  destruct (String.eqb k k'); simpl; [reflexivity | now rewrite IH].
Qed.

Lemma serial_fields_idempotent : forall fields,
  serial_fields (serial_fields fields) = serial_fields fields.
Proof.
  intros fields. pose proof (serial_idempotent (JObj fields)) as H.
  simpl in H. now injection H.
Qed.

Lemma assign_same_value : forall k v fields,
  lookup k fields = Some v -> assign k v fields = fields.
Proof.
  intros k v. induction fields as [|[k' x] rest IH]; simpl; [discriminate|].
  destruct (String.eqb k k'); intros H.
  - now injection H as ->.
  - now rewrite IH.
Qed.

Lemma lookup_serial_fields : forall k fields,
  lookup k (serial_fields fields) = option_map serial (lookup k fields).
Proof. intros. apply lookup_serial. Qed.

(** Patching again with the same payload, after the item has been written
    and read back, changes nothing that is written. *)
Lemma patched_again : forall payload fields,
  serial_fields (patched_fields payload (serial_fields (patched_fields payload fields)))
  = serial_fields (patched_fields payload fields).
Proof.
  intros payload fields.
  set (g := serial_fields (patched_fields payload fields)).
  assert (Hname : forall v, payload_field "name" payload = Some v ->
                            lookup "name" g = Some (serial v)).
  { intros v H. unfold g. rewrite lookup_serial_fields.
    now rewrite (patched_name _ _ _ H). }
  assert (Hprice : forall v, payload_field "price" payload = Some v ->
                             lookup "price" g = Some (serial v)).
  { intros v H. unfold g. rewrite lookup_serial_fields.
    now rewrite (patched_price _ _ _ H). }
  assert (Hsize : forall s, payload_field "size" payload = Some (JStr s) ->
                            lookup "size" g
                            = Some (JStr (canonical_size (Str.toLowerCase s)))).
  { intros s H. unfold g. rewrite lookup_serial_fields.
    now rewrite (patched_size _ _ _ H). }
  assert (Hg : serial_fields g = g) by apply serial_fields_idempotent.
  unfold patched_fields at 1.
  destruct (payload_field "name" payload) as [vn|];
    destruct (payload_field "price" payload) as [vp|];
    destruct (payload_field "size" payload) as [[| | |s| |]|];
    rewrite ?serial_fields_assign, Hg;
    cbn [serial];
    rewrite ?(assign_same_value _ _ _ (Hname _ eq_refl));
    rewrite ?(assign_same_value _ _ _ (Hprice _ eq_refl));
    rewrite ?(assign_same_value _ _ _ (Hsize _ eq_refl));
    reflexivity.
Qed.

Lemma patched_keeps_id : forall id payload fields,
  has_id id (JObj (patched_fields payload fields)) = has_id id (JObj fields).
Proof.
  intros id payload fields. simpl.
  rewrite (patched_untouched payload fields "id"); [reflexivity|].
  right. repeat split; discriminate.
Qed.

(** X16.  A PUT is idempotent: the same PUT sent again is answered as the
    first time and leaves the data file as the first left it. *)
Theorem put_twice_is_put_once :
  forall req uuid uuid' st id more payload before fields after,
  method req = "PUT" ->
  segments_of (pathname req) = "api" :: "items" :: id :: more ->
  body req = Encodes payload ->
  validateItemPayload payload true = Ok [] ->
  stored st = Ok (JArr (before ++ JObj fields :: after)) ->
  Forall (fun i => other_item id i = true) before ->
  has_id id (JObj fields) = true ->
  exists r st1,
    handleApi req uuid st = (Ok (Some r), st1)
    /\ status r = 200
    /\ handleApi req uuid' st1 = (Ok (Some r), st1).
Proof.
  intros req uuid uuid' st id more payload before fields after
         Hm Hseg Hb Hv Hst Hbefore Hid.
  set (fields' := patched_fields payload fields).
  exists (respond 200 (success (JObj fields'))),
         (saved (JArr (before ++ JObj fields' :: after))).
  split; [|split; [reflexivity|]].
  - rewrite (handleApi_items _ _ _ _ Hseg). simpl.
    rewrite (dispatch_put _ _ _ Hm), Hb.
    now rewrite (update_item_run _ _ _ _ _ _ _ Hv Hst (others_id_is _ _ Hbefore)
                   (has_id_id_is _ _ Hid) (patch_valid _ fields Hv)).
  - rewrite (handleApi_items _ _ _ _ Hseg). simpl.
    rewrite (dispatch_put _ _ _ Hm), Hb.
    rewrite (update_item_run id payload _ (map serial before)
               (JObj (serial_fields fields')) (map serial after)
               (JObj (patched_fields payload (serial_fields fields'))) Hv).
    + f_equal.
      * unfold respond, JSON_stringify. simpl.
        fold (serial_fields (patched_fields payload (serial_fields fields'))).
        fold (serial_fields fields').
        unfold fields'. now rewrite patched_again.
      * unfold saved, JSON_stringify. simpl.
        rewrite !map_app. simpl. rewrite !map_map.
        rewrite !(map_ext _ serial serial_idempotent).
        fold (serial_fields (patched_fields payload (serial_fields fields'))).
        fold (serial_fields fields').
        unfold fields'. now rewrite patched_again.
    + rewrite stored_saved. simpl. now rewrite map_app.
    + now apply others_serial.
    + apply has_id_id_is.
      change (JObj (serial_fields fields')) with (serial (JObj fields')).
      rewrite has_id_serial. unfold fields'. now rewrite patched_keeps_id.
    + apply patch_valid. exact Hv.
Qed.

Lemma put_twice_is_put_once_witness :
  exists r st1,
    handleApi {| method := "PUT"; pathname := "/api/items/a1";
              body := Encodes (JObj [("price", JNum (S754_zero true));
                                     ("size", JStr "LARGE")]) |}
      "7c0e9a3e-5a4b-4c58-9d53-1f2f6f0c8a11"
      (saved (JArr [JObj [("id", JStr "a1"); ("name", JStr "Tea");
                               ("price", JNum (S754_finite false 3 0));
                               ("size", JStr "m")]]))
    = (Ok (Some r), st1)
    /\ status r = 200
    /\ handleApi {| method := "PUT"; pathname := "/api/items/a1";
              body := Encodes (JObj [("price", JNum (S754_zero true));
                                     ("size", JStr "LARGE")]) |}
         "0b7f0d7e-1f0a-4f3c-8f59-2f3f7a4e9c22" st1
       = (Ok (Some r), st1).
Proof.
  apply (put_twice_is_put_once
           {| method := "PUT"; pathname := "/api/items/a1";
              body := Encodes (JObj [("price", JNum (S754_zero true));
                                     ("size", JStr "LARGE")]) |}
           "7c0e9a3e-5a4b-4c58-9d53-1f2f6f0c8a11"
           "0b7f0d7e-1f0a-4f3c-8f59-2f3f7a4e9c22"
           (saved (JArr [JObj [("id", JStr "a1"); ("name", JStr "Tea");
                               ("price", JNum (S754_finite false 3 0));
                               ("size", JStr "m")]]))
           "a1" [] (JObj [("price", JNum (S754_zero true)); ("size", JStr "LARGE")]) []
           [("id", JStr "a1"); ("name", JStr "Tea");
            ("price", JNum (S754_finite false 3 0)); ("size", JStr "m")]
           []);
    try reflexivity.
  constructor.
Defined.

(** X17.  After a successful PUT, a GET [/api/items/{id}] for the same id
    is answered 200 with the item the PUT returned. *)
Theorem updated_item_is_retrievable :
  forall req uuid uuid' st id more more' payload before fields after lookup_req,
  method req = "PUT" ->
  segments_of (pathname req) = "api" :: "items" :: id :: more ->
  body req = Encodes payload ->
  validateItemPayload payload true = Ok [] ->
  stored st = Ok (JArr (before ++ JObj fields :: after)) ->
  Forall (fun i => other_item id i = true) before ->
  has_id id (JObj fields) = true ->
  method lookup_req = "GET" ->
  segments_of (pathname lookup_req) = "api" :: "items" :: id :: more' ->
  exists item st1,
    handleApi req uuid st = (Ok (Some (respond 200 (success item))), st1)
    /\ handleApi lookup_req uuid' st1 = (Ok (Some (respond 200 (success item))), st1).
Proof.
  intros req uuid uuid' st id more more' payload before fields after lookup_req
         Hm Hseg Hb Hv Hst Hbefore Hid Hm' Hseg'.
  exists (JObj (patched_fields payload fields)),
         (saved (JArr (before ++ JObj (patched_fields payload fields) :: after))).
  split.
  - rewrite (handleApi_items _ _ _ _ Hseg). simpl.
    rewrite (dispatch_put _ _ _ Hm), Hb.
    now rewrite (update_item_run _ _ _ _ _ _ _ Hv Hst (others_id_is _ _ Hbefore)
                   (has_id_id_is _ _ Hid) (patch_valid _ fields Hv)).
  - rewrite (handleApi_items _ _ _ _ Hseg'). simpl.
    rewrite (dispatch_get_one _ _ _ Hm').
    rewrite (get_item_found id _ (map serial before)
               (serial (JObj (patched_fields payload fields))) (map serial after)).
    + now rewrite respond_serial.
    + rewrite stored_saved. simpl. now rewrite map_app.
    + now apply others_serial.
    + apply has_id_id_is. now rewrite has_id_serial, patched_keeps_id.
Qed.

Lemma updated_item_is_retrievable_witness :
  exists item st1,
    handleApi {| method := "PUT"; pathname := "/api/items/a1";
              body := Encodes (JObj [("price", JNum (S754_zero true));
                                     ("size", JStr "LARGE")]) |}
      "7c0e9a3e-5a4b-4c58-9d53-1f2f6f0c8a11"
      (saved (JArr [JObj [("id", JStr "a1"); ("name", JStr "Tea");
                               ("price", JNum (S754_finite false 3 0));
                               ("size", JStr "m")]]))
    = (Ok (Some (respond 200 (success item))), st1)
    /\ handleApi {| method := "GET"; pathname := "/api/items/a1"; body := Empty |}
         "0b7f0d7e-1f0a-4f3c-8f59-2f3f7a4e9c22" st1
       = (Ok (Some (respond 200 (success item))), st1).
Proof.
  apply (updated_item_is_retrievable
           {| method := "PUT"; pathname := "/api/items/a1";
              body := Encodes (JObj [("price", JNum (S754_zero true));
                                     ("size", JStr "LARGE")]) |}
           "7c0e9a3e-5a4b-4c58-9d53-1f2f6f0c8a11"
           "0b7f0d7e-1f0a-4f3c-8f59-2f3f7a4e9c22"
           (saved (JArr [JObj [("id", JStr "a1"); ("name", JStr "Tea");
                               ("price", JNum (S754_finite false 3 0));
                               ("size", JStr "m")]]))
           "a1" [] [] (JObj [("price", JNum (S754_zero true)); ("size", JStr "LARGE")]) []
           [("id", JStr "a1"); ("name", JStr "Tea");
            ("price", JNum (S754_finite false 3 0)); ("size", JStr "m")]
           []
           {| method := "GET"; pathname := "/api/items/a1"; body := Empty |});
    try reflexivity.
  constructor.
Defined.

(** X18.  When the data file holds a list of objects none of which has
    the id that [randomUUID()] returns, creating an item and then deleting
    it by the generated id gives the item back and leaves the data file
    holding the collection as it was before the two requests. *)
Theorem create_then_delete :
  forall req uuid st elems payload delete_req uuid' more,
  method req = "POST" ->
  segments_of (pathname req) = ["api"; "items"] ->
  body req = Encodes payload ->
  validateItemPayload payload false = Ok [] ->
  stored st = Ok (JArr elems) ->
  Forall (fun i => other_item uuid i = true) elems ->
  method delete_req = "DELETE" ->
  segments_of (pathname delete_req) = "api" :: "items" :: uuid :: more ->
  exists item st1,
    handleApi req uuid st = (Ok (Some (respond 201 (success item))), st1)
    /\ handleApi delete_req uuid' st1
       = (Ok (Some (respond 200 (success item))), saved (JArr elems)).
Proof.
  intros req uuid st elems payload delete_req uuid' more
         Hm Hseg Hb Hv Hst Hfresh Hm' Hseg'.
  destruct (newItem_valid uuid _ Hv) as (n & p & s & _ & _ & _ & _ & Hnew).
  set (item := JObj [("id", JStr uuid); ("name", JStr n); ("price", JNum p);
                     ("size", JStr (canonical_size (Str.toLowerCase s)))]) in *.
  exists item, (saved (JArr (elems ++ [item]))). split.
  - rewrite (handleApi_items _ _ _ _ Hseg). simpl.
    rewrite (dispatch_post _ _ Hm), Hb.
    now rewrite (create_item_run _ _ _ _ _ Hv Hst Hnew).
  - rewrite (handleApi_items _ _ _ _ Hseg'). simpl.
    rewrite (dispatch_delete _ _ _ Hm').
    rewrite (delete_item_run uuid _ (map serial elems) (serial item) []).
    + rewrite respond_serial, app_nil_r.
      change (JArr (map serial elems)) with (serial (JArr elems)).
      now rewrite saved_serial.
    + rewrite stored_saved. simpl. now rewrite map_app.
    + now apply others_serial.
    + apply has_id_id_is. rewrite has_id_serial. simpl. apply String.eqb_refl.
Qed.

Lemma create_then_delete_witness :
  exists item st1,
    handleApi {| method := "POST"; pathname := "/api/items";
              body := Encodes (JObj [("name", JStr "Tea");
                                     ("price", JNum (S754_finite false 5 0));
                                     ("size", JStr "s")]) |}
      "7c0e9a3e-5a4b-4c58-9d53-1f2f6f0c8a11" fresh_store
    = (Ok (Some (respond 201 (success item))), st1)
    /\ handleApi {| method := "DELETE";
                    pathname := "/api/items/7c0e9a3e-5a4b-4c58-9d53-1f2f6f0c8a11";
                    body := Empty |}
         "0b7f0d7e-1f0a-4f3c-8f59-2f3f7a4e9c22" st1
       = (Ok (Some (respond 200 (success item))), saved (JArr [])).
Proof.
  apply (create_then_delete
           {| method := "POST"; pathname := "/api/items";
              body := Encodes (JObj [("name", JStr "Tea");
                                     ("price", JNum (S754_finite false 5 0));
                                     ("size", JStr "s")]) |}
           "7c0e9a3e-5a4b-4c58-9d53-1f2f6f0c8a11" fresh_store []
           (JObj [("name", JStr "Tea"); ("price", JNum (S754_finite false 5 0));
                  ("size", JStr "s")])
           {| method := "DELETE";
              pathname := "/api/items/7c0e9a3e-5a4b-4c58-9d53-1f2f6f0c8a11";
              body := Empty |}
           "0b7f0d7e-1f0a-4f3c-8f59-2f3f7a4e9c22" []);
    try reflexivity.
  constructor.
Defined.

(** ** The request listener *)

Lemma handleApi_never_throws : forall req uuid st,
  exists answer st', handleApi req uuid st = (Ok answer, st').
Proof.
  intros req uuid st. unfold handleApi.
  destruct (segments_of (pathname req)) as [|first rest]; [eexists; eexists; reflexivity|].
  destruct (negb (String.eqb first "api")); [eexists; eexists; reflexivity|].
  destruct (negb (segment_is (nth_error (first :: rest) 1) "items"));
    [eexists; eexists; reflexivity|].
  cbv zeta. unfold try_catch, bind, ret.
  destruct (dispatch req (nth_error (first :: rest) 2) uuid st) as [[r|e] st'];
    eexists; eexists; reflexivity.
Qed.

Lemma handleApi_declined : forall req uuid st,
  hd_error (segments_of (pathname req)) <> Some "api" ->
  handleApi req uuid st = (Ok None, st).
Proof.
  intros req uuid st H. unfold handleApi.
  destruct (segments_of (pathname req)) as [|first rest]; [reflexivity|].
  destruct (String.eqb_spec first "api") as [->|_]; [now elim H | reflexivity].
Qed.

(** X19.  A request whose path ends in [.html] (or is [/]) is answered by
    the static server whatever its method and leaves the data file as it
    is: the answer is a page with status 200 when the file can be read and
    404 otherwise.  This holds for such a path under [/api/items] too. *)
Theorem html_paths_never_reach_the_api : forall dirname readFile req uuid st,
  Str.endsWith (requested_path (pathname req)) ".html" = true ->
  exists r page,
    server dirname readFile req uuid st = (Ok r, st)
    /\ serveStaticHtml dirname readFile req = Some r
    /\ sent r = Page page
    /\ (status r = 200 \/ status r = 404)
    /\ (status r = 200 <->
        readFile (filePath dirname (requested_path (pathname req))) = Some page).
Proof.
  intros dirname readFile req uuid st Hend.
  unfold server, try_catch, serveStaticHtml. rewrite Hend. cbn [negb].
  destruct (readFile (filePath dirname (requested_path (pathname req))))
    as [content|].
  - eexists; exists content. repeat split; auto.
  - destruct (readFile (Path.join [PUBLIC_DIR dirname; "404.html"])) as [nf|];
      eexists; eexists; (split; [reflexivity|]); (split; [reflexivity|]);
      (split; [reflexivity|]); (split; [now right|]);
      simpl; split; discriminate.
Qed.

Lemma html_paths_never_reach_the_api_witness :
  exists r page,
    server "/srv/app" (fun _ => None)
      {| method := "DELETE"; pathname := "/api/items/a1.html"; body := Empty |}
      "7c0e9a3e-5a4b-4c58-9d53-1f2f6f0c8a11"
      (saved (JArr [JObj [("id", JStr "a1.html"); ("name", JStr "Tea");
                          ("price", JNum (S754_finite false 3 0));
                          ("size", JStr "m")]]))
    = (Ok r,
       saved (JArr [JObj [("id", JStr "a1.html"); ("name", JStr "Tea");
                          ("price", JNum (S754_finite false 3 0));
                          ("size", JStr "m")]]))
    /\ serveStaticHtml "/srv/app" (fun _ => None)
         {| method := "DELETE"; pathname := "/api/items/a1.html"; body := Empty |}
       = Some r
    /\ sent r = Page page
    /\ (status r = 200 \/ status r = 404)
    /\ (status r = 200 <-> @None string = Some page).
Proof.
  apply (html_paths_never_reach_the_api "/srv/app" (fun _ => None)
           {| method := "DELETE"; pathname := "/api/items/a1.html"; body := Empty |}
           "7c0e9a3e-5a4b-4c58-9d53-1f2f6f0c8a11"
           (saved (JArr [JObj [("id", JStr "a1.html"); ("name", JStr "Tea");
                               ("price", JNum (S754_finite false 3 0));
                               ("size", JStr "m")]]))).
  reflexivity.
Defined.

(** The same id followed by a slash no longer ends in [.html]: that
    request is the API's, and the item is deleted. *)
Example html_id_with_trailing_slash :
  let item := JObj [("id", JStr "a1.html"); ("name", JStr "Tea");
                    ("price", JNum (S754_finite false 3 0)); ("size", JStr "m")] in
  server "/srv/app" (fun _ => None)
    {| method := "DELETE"; pathname := "/api/items/a1.html/"; body := Empty |}
    "7c0e9a3e-5a4b-4c58-9d53-1f2f6f0c8a11" (saved (JArr [item]))
  = (Ok (respond 200 (success item)), saved (JArr [])).
Proof. reflexivity. Qed.

(** X20.  The request listener never throws.  A request whose path does
    not end in [.html] is answered by the API when the first segment of
    the path is [api], with the answer and the store of [handleApi], and
    by 404 "Not found" otherwise, the store untouched. *)
Theorem server_always_answers : forall dirname readFile req uuid st,
  exists r st',
    server dirname readFile req uuid st = (Ok r, st')
    /\ (Str.endsWith (requested_path (pathname req)) ".html" = false ->
        hd_error (segments_of (pathname req)) <> Some "api" ->
        r = respond 404 (failure "Not found") /\ st' = st)
    /\ (Str.endsWith (requested_path (pathname req)) ".html" = false ->
        forall r0 st0,
          handleApi req uuid st = (Ok (Some r0), st0) -> r = r0 /\ st' = st0).
Proof.
  intros dirname readFile req uuid st.
  destruct (Str.endsWith (requested_path (pathname req)) ".html") eqn:Hend.
  - unfold server, try_catch, serveStaticHtml. rewrite Hend. cbn [negb].
    destruct (readFile (filePath dirname (requested_path (pathname req)))).
    + eexists; eexists. split; [reflexivity|]. split; discriminate.
    + destruct (readFile (Path.join [PUBLIC_DIR dirname; "404.html"]));
        eexists; eexists; (split; [reflexivity|]); split; discriminate.
  - unfold server, try_catch, serveStaticHtml, bind, ret. rewrite Hend. cbn [negb].
    destruct (handleApi_never_throws req uuid st) as (answer & st' & Hrun).
    rewrite Hrun.
    destruct answer as [r|].
    + exists r, st'. split; [reflexivity|]. split.
      * intros _ Hapi. rewrite (handleApi_declined _ _ _ Hapi) in Hrun. discriminate.
      * intros _ r0 st0 E. injection E as <- <-. auto.
    + exists (respond 404 (failure "Not found")), st'. split; [reflexivity|]. split.
      * intros _ Hapi. rewrite (handleApi_declined _ _ _ Hapi) in Hrun.
        injection Hrun as <-. auto.
      * intros _ r0 st0 E. discriminate.
Qed.
